(** * Sales assistant: router, turn memory, hybrid filter engine, detail analyzer

    A shallow embedding of the Python sources
    - [graph/router.py], [graph/workflow.py]
    - [utils/helpers.py]
    - [tools/hybrid_search.py]
    together with the properties of the design document that concern them.

    Conventions of the embedding.
    - A Python [str] is a Rocq [string]; [str.lower] is the ASCII case
      mapping (the keywords searched for are plain ASCII).
    - A Python exception is a value of [Exn]; a function that may raise
      returns [Res A].
    - A Python [dict] with string keys is a [gmap string _]; [d.get(k)] is
      the lookup [d !! k].
    - Python integers are [Z]; the quotients computed with [/] are exact
      rationals [Q]. *)

From Stdlib Require Import ZArith QArith Ascii String List Bool Lia.
From stdpp Require Import base option list strings gmap.

Local Open Scope string_scope.
Local Open Scope Z_scope.

(** ** Python exceptions and results *)

Inductive Exn : Type :=
  | ValueError (msg : string)
  | IndexError
  | TypeError
  | RuntimeError (msg : string)
  | ZeroDivisionError
  | ReError
  | KeyError (key : string)
  | AttributeError
  | PortError (msg : string).

Inductive Res (A : Type) : Type :=
  | Ok (a : A)
  | Raise (e : Exn).
Arguments Ok {A} a.
Arguments Raise {A} e.

Definition res_bind {A B : Type} (m : Res A) (k : A -> Res B) : Res B :=
  match m with
  | Ok a => k a
  | Raise e => Raise e
  end.

#[global] Instance res_mbind : MBind Res := fun A B k m => res_bind m k.
#[global] Instance res_mret : MRet Res := fun A a => Ok a.

Definition returns {A : Type} (m : Res A) : Prop := exists a, m = Ok a.

(** ** Python string operations *)

Module PyStr.

Definition is_upper (c : ascii) : bool :=
  let n := N_of_ascii c in (65 <=? n)%N && (n <=? 90)%N.

(** [c.lower()] on one character. *)
Definition lower_char (c : ascii) : ascii :=
  if is_upper c then ascii_of_N (N_of_ascii c + 32) else c.

(** [s.lower()] *)
Fixpoint lower (s : string) : string :=
  match s with
  | EmptyString => EmptyString
  | String c s' => String (lower_char c) (lower s')
  end.

(** [s.startswith(p)] *)
Fixpoint startswith (p s : string) : bool :=
  match p, s with
  | EmptyString, _ => true
  | String _ _, EmptyString => false
  | String a p', String b s' => Ascii.eqb a b && startswith p' s'
  end.

(** [p in s]: [p] occurs in [s] as a contiguous substring. *)
Fixpoint contains (p s : string) : bool :=
  startswith p s ||
  match s with
  | EmptyString => false
  | String _ s' => contains p s'
  end.

(** The characters [str.strip()] removes: [str.isspace] on the ASCII range. *)
Definition is_space (c : ascii) : bool :=
  let n := N_of_ascii c in
  ((9 <=? n)%N && (n <=? 13)%N) || ((28 <=? n)%N && (n <=? 32)%N).

(** [s.lstrip()] *)
Fixpoint lstrip (s : string) : string :=
  match s with
  | EmptyString => EmptyString
  | String c s' => if is_space c then lstrip s' else s
  end.

(** [s.rstrip()] *)
Fixpoint rstrip (s : string) : string :=
  match s with
  | EmptyString => EmptyString
  | String c s' =>
      match rstrip s' with
      | EmptyString => if is_space c then EmptyString else String c EmptyString
      | r => String c r
      end
  end.

(** [s.strip()] *)
Definition strip (s : string) : string := rstrip (lstrip s).

(** [s.split(sep)] for a one-character separator. *)
Fixpoint split (sep : ascii) (s : string) : list string :=
  match s with
  | EmptyString => [EmptyString]
  | String c s' =>
      if Ascii.eqb c sep then EmptyString :: split sep s'
      else match split sep s' with
           | [] => [String c EmptyString]
           | h :: t => String c h :: t
           end
  end.

(** [s.count(c)] for a one-character argument. *)
Fixpoint count (c : ascii) (s : string) : nat :=
  match s with
  | EmptyString => 0%nat
  | String a s' => ((if Ascii.eqb a c then 1 else 0) + count c s')%nat
  end.

End PyStr.

(** [sep.join(parts)] *)
Fixpoint join (sep : string) (parts : list string) : string :=
  match parts with
  | [] => ""
  | [p] => p
  | p :: rest => p ++ sep ++ join sep rest
  end.

(** [l[-n:]] for a positive literal [n]: the last [n] items, all of them
    when the list is shorter. *)
Definition last_n {A : Type} (n : nat) (l : list A) : list A :=
  drop (List.length l - n)%nat l.

(** ** graph/state.py and the conversation memory of utils/helpers.py *)

(** One item of [conversation_memory["history"]]: the dict
    [{"query": .., "timestamp": ..}], to which the turn later adds
    ["response"]. *)
Record Entry : Type := {
  query : string;
  timestamp : string;
  response : option string
}.

(** The [GraphState] a turn runs on. [messages] holds the [content] of each
    message; an absent (or [None]) [conversation_history] is [None]; an
    absent [user_context] key is [None]. *)
Record GraphState : Type := {
  messages : list string;
  conversation_history : option (list Entry);
  user_context : option (gmap string string)
}.

Inductive Route : Type :=
  | prospecting
  | insights
  | communication
  | route_end.

(** ** graph/router.py *)

(** The value passed as [conversation_history] to the router prompt:
    [str(history[-3:]) if history else "No previous context"]. *)
Inductive HistoryWindow : Type :=
  | NoPreviousContext
  | Recent (entries : list Entry).

(** The Classifier Port as the router uses it: [router_chain.invoke]. *)
Definition RouterChain : Type := string -> HistoryWindow -> Res string.

Definition history_window (history : option (list Entry)) : HistoryWindow :=
  match history with
  | None | Some [] => NoPreviousContext
  | Some h => Recent (last_n 3 h)
  end.

(** Lines 54-61 of [route_requests]: the keyword cascade on the route token. *)
Definition select_route (route : string) : Route :=
  if PyStr.contains "prospecting" route then prospecting
  else if PyStr.contains "insights" route then insights
  else if PyStr.contains "communication" route then communication
  else route_end.

(** Lines 44-52 of [route_requests]: the route token of a classifier
    response, and the state after the optional [user_type] write.
    [user_type, route = result.split('|')] raises [ValueError] unless the
    split has exactly two parts. *)
Definition parse_response (state : GraphState) (result : string)
  : Res (GraphState * string) :=
  if PyStr.contains "|" result then
    match PyStr.split "|" result with
    | [user_type; route] =>
        let ctx := default ∅ (user_context state) in
        let state' := {| messages := messages state;
                         conversation_history := conversation_history state;
                         user_context :=
                           Some (<["user_type" := PyStr.strip user_type]> ctx) |} in
        Ok (state', PyStr.lower (PyStr.strip route))
    | [] | [_] => Raise (ValueError "not enough values to unpack")
    | _ => Raise (ValueError "too many values to unpack")
    end
  else Ok (state, PyStr.lower result).

(** [route_requests(state, router_chain)]: the route, with the state as the
    call leaves it. *)
Definition route_requests (state : GraphState) (router_chain : RouterChain)
  : Res (GraphState * Route) :=
  match last (messages state) with
  | None => Raise IndexError
  | Some last_message =>
      result ← router_chain last_message
                 (history_window (conversation_history state));
      '(state', route) ← parse_response state result;
      Ok (state', select_route route)
  end.

(** ** graph/workflow.py *)

(** What a worker node returns: [{"messages": [AIMessage(content=..)]}]. *)
Record NodeOutput : Type := {
  out_messages : list string
}.

Definition NodeFunc : Type := GraphState -> Res NodeOutput.

(** A run of the compiled graph as [app.stream] shows it: the events
    yielded, one [{node: output}] per executed node, and the exception that
    ended the stream, if any. The dict under [user_context] is shared with
    the caller, so what the run wrote into it is part of the outcome; the
    history is only read. *)
Record Stream : Type := {
  events : list (string * NodeOutput);
  failure : option Exn;
  user_context_left : gmap string string
}.

Definition App : Type := GraphState -> Stream.

Definition run_node (name : string) (node : NodeFunc) (state : GraphState)
  : Stream :=
  match node state with
  | Ok out => {| events := [(name, out)]; failure := None;
                 user_context_left := default ∅ (user_context state) |}
  | Raise e => {| events := []; failure := Some e;
                  user_context_left := default ∅ (user_context state) |}
  end.

(** [create_workflow]: the conditional entry point calls the router and
    dispatches on its label; every worker node is followed by [END]. The
    graph has no node or edge that handles an exception of the router or of
    a worker, so either one ends the stream. *)
Definition create_workflow
    (prospecting_node_func insights_node_func communication_node_func : NodeFunc)
    (route_requests_func : GraphState -> Res (GraphState * Route)) : App :=
  fun state =>
    match route_requests_func state with
    | Raise e => {| events := []; failure := Some e;
                    user_context_left := default ∅ (user_context state) |}
    | Ok (state', prospecting) => run_node "prospecting" prospecting_node_func state'
    | Ok (state', insights) => run_node "insights" insights_node_func state'
    | Ok (state', communication) =>
        run_node "communication" communication_node_func state'
    | Ok (state', route_end) =>
        {| events := []; failure := None;
           user_context_left := default ∅ (user_context state') |}
    end.

(** ** utils/helpers.py *)

(** The module-level [conversation_memory]. *)
Record Memory : Type := {
  history : list Entry;
  mem_user_context : gmap string string
}.

(** [clear_conversation_memory] *)
Definition clear_conversation_memory : Memory :=
  {| history := []; mem_user_context := ∅ |}.

(** Lines 18-27 of [run_conversation]: the append of the current query and
    the truncation [history = history[-10:]] when more than 10 are held. *)
Definition remember (h : list Entry) (q now : string) : list Entry :=
  let h1 := (h ++ [{| query := q; timestamp := now; response := None |}])%list in
  if (10 <? List.length h1)%nat then last_n 10 h1 else h1.

(** [history[-1]["response"] = r] *)
Definition set_last_response (r : string) (h : list Entry) : list Entry :=
  match last h with
  | None => h
  | Some e =>
      (take (List.length h - 1)%nat h ++
        [{| query := query e; timestamp := timestamp e; response := Some r |}])%list
  end.

(** The text stored as response for one event: the content of the last
    message of the node output, the empty string when it has none. *)
Definition response_text (value : NodeOutput) : string :=
  default "" (last (out_messages value)).

(** The body of the [for event in app.stream(..)] loop, over the events in
    order: [output_data["agent_out"]] and the history after them. *)
Fixpoint consume_events (evs : list (string * NodeOutput))
    (out : option NodeOutput) (h : list Entry)
  : option NodeOutput * list Entry :=
  match evs with
  | [] => (out, h)
  | (_, value) :: rest =>
      consume_events rest (Some value) (set_last_response (response_text value) h)
  end.

(** The [context_msg] f-string; [repr_queries] renders the list of the last
    three queries as Python prints a list of [str]. *)
Definition context_msg (repr_queries : list string -> string)
    (h : list Entry) (q : string) : string :=
  "Previous queries: " ++ repr_queries (map query (last_n 3 h)) ++
  String (ascii_of_N 10) ("Current query: " ++ q).

(** [run_conversation(app, query)] on the memory [mem], at time [now]:
    the memory it leaves and [output_data] (its ["agent_out"] item, if
    set), or the exception it raises. [app = None] is [None]. The initial
    state holds the history list and the user-context dict of the memory
    themselves, not copies. *)
Definition run_conversation (repr_queries : list string -> string)
    (mem : Memory) (now : string) (app : option App) (q : string)
  : Memory * Res (option NodeOutput) :=
  let h := remember (history mem) q now in
  let initial_state :=
    {| messages := [context_msg repr_queries h q];
       conversation_history := Some h;
       user_context := Some (mem_user_context mem) |} in
  match app with
  | None =>
      ({| history := h; mem_user_context := mem_user_context mem |},
       Raise (RuntimeError " App not compiled. Please fix errors above."))
  | Some app =>
      let s := app initial_state in
      let '(out, h') := consume_events (events s) None h in
      ({| history := h'; mem_user_context := user_context_left s |},
       match failure s with
       | Some e => Raise e
       | None => Ok out
       end)
  end.

(** A session: [run_conversation] once per query, each on the memory the
    previous one left. A turn is the time of the call, the app and the
    query. *)
Fixpoint run_session (repr_queries : list string -> string) (mem : Memory)
    (turns : list (string * option App * string)) : Memory :=
  match turns with
  | [] => mem
  | (now, app, q) :: rest =>
      run_session repr_queries (fst (run_conversation repr_queries mem now app q)) rest
  end.

(** ** tools/hybrid_search.py: the data *)

(** A Python [float]: a finite value (a rational), an infinity or a NaN. *)
Inductive PyFloat : Type :=
  | Finite (q : Q)
  | PosInf
  | NegInf
  | NaN.

(** The values a signal of the BuzzBoard dict can hold. [VOther] stands for
    any value that is neither [None], a [bool], a number nor a [str]. *)
Inductive PyVal : Type :=
  | VNone
  | VBool (b : bool)
  | VInt (n : Z)
  | VFloat (x : PyFloat)
  | VStr (s : string)
  | VOther.

(** The parsed BuzzBoard dict: signal name to value. *)
Abbreviation Buzzboard := (gmap string PyVal).

(** What [ast.literal_eval] can return: a dict, or a value that is none. *)
Inductive Literal : Type :=
  | LitDict (d : Buzzboard)
  | LitOther.

(** The cell of column 'BuzzBoard Data Parsed': the dict, or a [str]. *)
Inductive BuzzCell : Type :=
  | CellDict (d : Buzzboard)
  | CellStr (s : string).

(** A row of the DataFrame: the text of its cells by column name, and the
    BuzzBoard cell. *)
Record Row : Type := {
  cells : gmap string string;
  buzz : BuzzCell
}.

Record DataFrame : Type := {
  columns : list string;
  rows : list Row
}.

Inductive Operator : Type :=
  | contains
  | not_contains
  | equals
  | not_equals.

Record FilterCondition : Type := {
  field : string;
  operator : Operator;
  value : string
}.

(** The library functions the toolbox calls.
    - [literal_eval s]: [ast.literal_eval(s)].
    - [str_contains pat]: the test [Series.str.contains(pat, na=False,
      case=False)] applies to each cell; [pat] is a regular expression, and
      one that does not compile raises.
    - [value_counts_head10 col]: [col.value_counts().head(10).to_dict()]. *)
Class Library : Type := {
  literal_eval : string -> Res Literal;
  str_contains : string -> Res (string -> bool);
  value_counts_head10 : list string -> list (string * nat)
}.

(** The full record [_analyze_prospect] returns. ['Local Presence Score'] is
    kept as the number [n] of its text ["n/6"]. *)
Record Analysis : Type := {
  prospect_business_name : option string;
  primary_category : option string;
  location : string;
  local_presence : Z;
  sem_activity : string;
  key_gaps : string;
  opportunities : string;
  match_type : string;
  relevance_score : Z
}.

(** The dicts [find_prospects_hybrid] returns. *)
Inductive ResultDict : Type :=
  | Full (a : Analysis)
  | FilteredOut (name : option string) (status : string) (score : Z)
  | StatusRecord (status : string)
  | Suggestion (status suggestion : string) (available : list (string * nat)).

(** [d.get('relevance_score', 0)] *)
Definition get_relevance_score (d : ResultDict) : Z :=
  match d with
  | Full a => relevance_score a
  | FilteredOut _ _ score => score
  | StatusRecord _ | Suggestion _ _ _ => 0
  end.

(** ** Reading signals *)

(** [v == s] for a [str] literal [s]. *)
Definition eq_str (v : PyVal) (s : string) : bool :=
  match v with
  | VStr t => String.eqb t s
  | _ => false
  end.

(** [buzzboard.get(k) == 'Yes'] *)
Definition is_yes (bb : Buzzboard) (k : string) : bool :=
  eq_str (default VNone (bb !! k)) "Yes".

(** [buzzboard.get(k, 'No') == 'No'] *)
Definition is_no (bb : Buzzboard) (k : string) : bool :=
  eq_str (default (VStr "No") (bb !! k)) "No".

(** [isinstance(v, (int, float)) and v > bound]; a [bool] is an [int]. *)
Definition number_above (v : PyVal) (bound : Z) : bool :=
  match v with
  | VBool b => bound <? Z.b2z b
  | VInt n => bound <? n
  | VFloat (Finite q) => negb (Qle_bool q (inject_Z bound))
  | VFloat PosInf => true
  | _ => false
  end.

(** Lines 183-188: the dict behind the BuzzBoard cell. A [str] cell is
    parsed, and reads as the empty dict when it is 'Not Found' or does not
    parse; when it parses to something that is no dict, the first [.get]
    on it raises. *)
Definition buzzboard_of `{Library} (cell : BuzzCell) : Res Buzzboard :=
  match cell with
  | CellDict d => Ok d
  | CellStr s =>
      if String.eqb s "Not Found" then Ok ∅
      else match literal_eval s with
           | Ok (LitDict d) => Ok d
           | Ok LitOther => Raise AttributeError
           | Raise _ => Ok ∅
           end
  end.

(** ** Step 2 of [find_prospects_hybrid]: structured filtering *)

(** [filtered_df[f.field].astype(str).str.lower()] at one row. *)
Definition column_text (r : Row) (fld : string) : string :=
  PyStr.lower (default "" (cells r !! fld)).

Definition exact_match (rs : list Row) (fld val : string) : list Row :=
  List.filter (fun r => String.eqb (column_text r fld) val) rs.

Definition is_empty {A : Type} (l : list A) : bool :=
  match l with
  | [] => true
  | _ :: _ => false
  end.

(** The body of the loop [for f in filters], lines 93-116. *)
Definition apply_filter `{Library} (cols : list string) (rs : list Row)
    (f : FilterCondition) : Res (list Row) :=
  if negb (bool_decide (field f ∈ cols)) then Ok rs
  else
    let col := fun r => column_text r (field f) in
    let val := PyStr.lower (value f) in
    match operator f with
    | contains =>
        m ← str_contains val;
        Ok (List.filter (fun r => m (col r)) rs)
    | equals =>
        let exact := exact_match rs (field f) val in
        if is_empty exact && String.eqb (field f) "Primary Category" then
          m ← str_contains val;
          let fuzzy_match := List.filter (fun r => m (col r)) rs in
          if negb (is_empty fuzzy_match) then Ok fuzzy_match else Ok exact
        else Ok exact
    | not_contains =>
        m ← str_contains val;
        Ok (List.filter (fun r => negb (m (col r))) rs)
    | not_equals =>
        Ok (List.filter (fun r => negb (String.eqb (col r) val)) rs)
    end.

(** The loop itself. *)
Fixpoint apply_filters `{Library} (cols : list string) (rs : list Row)
    (filters : list FilterCondition) : Res (list Row) :=
  match filters with
  | [] => Ok rs
  | f :: rest =>
      rs' ← apply_filter cols rs f;
      apply_filters cols rs' rest
  end.

(** ** [_analyze_prospect] *)

(** Lines 190-194. *)
Definition local_presence_score (bb : Buzzboard) : Z :=
  (if is_yes bb "Google Places" then 3 else 0) +
  (if match bb !! "Reviews (local and social)" with
      | Some v => number_above v 10
      | None => false
      end then 2 else 0) +
  (if is_yes bb "FB latest_posts" then 1 else 0).

(** Line 196. *)
Definition sem_score (bb : Buzzboard) : Z :=
  if is_yes bb "SEM" then 3 else 0.

(** The condition of line 204 on the query. *)
Definition asks_low_local_presence (original_query : string) : bool :=
  PyStr.contains "low local presence" (PyStr.lower original_query) ||
  PyStr.contains "weak local presence" (PyStr.lower original_query).

(** The condition of line 213 on the query. *)
Definition asks_high_sem (original_query : string) : bool :=
  existsb (fun term => PyStr.contains term (PyStr.lower original_query))
    ["high google ads"; "high sem"; "google ads spend"; "high ads spend"].

(** The three locals the scoring updates. *)
Record Scoring : Type := {
  relevance : Z;
  gaps : list string;
  opps : list string
}.

(** Lines 199-201. *)
Definition base_scoring : Scoring :=
  {| relevance := 1; gaps := []; opps := [] |}.

(** Lines 203-210: the local-presence clause. *)
Definition local_presence_clause (original_query : string) (relaxed : bool)
    (lps : Z) (s : Scoring) : Scoring :=
  if asks_low_local_presence original_query then
    if lps <=? 2 then
      {| relevance := relevance s + 3;
         gaps := (gaps s ++ ["Weak Local Presence"])%list;
         opps := (opps s ++ ["Improve Google My Business & Local SEO"])%list |}
    else if negb relaxed then
      {| relevance := 0; gaps := gaps s; opps := opps s |}
    else s
  else s.

(** Lines 212-225: the SEM clause. [None] is the early [return] of the
    filtered-out marker. *)
Definition sem_clause (original_query : string) (relaxed : bool)
    (sem : Z) (s : Scoring) : option Scoring :=
  if asks_high_sem original_query then
    if 3 <=? sem then
      Some {| relevance := relevance s + 3;
              gaps := gaps s;
              opps := (opps s ++ ["Optimize Current SEM Campaigns"])%list |}
    else if negb relaxed then None
    else Some s
  else Some s.

(** Lines 227-233: the gaps read from the signals. *)
Definition general_gaps (bb : Buzzboard) : list string :=
  ((if is_no bb "Google Places" then ["No Google Places Listing"] else []) ++
   (if is_no bb "SEM" then ["No Paid Search Activity"] else []) ++
   (if is_no bb "FB latest_posts" then ["Inactive Social Media"] else []))%list.

(** Lines 235-237: in relaxed mode every gap counts one point. *)
Definition relaxed_bonus (relaxed : bool) (s : Scoring) : Scoring :=
  if relaxed && negb (is_empty (gaps s)) then
    {| relevance := relevance s + Z.of_nat (List.length (gaps s));
       gaps := gaps s; opps := opps s |}
  else s.

(** The scoring of one parsed row, lines 190-237: the sub-scores, and the
    final [Scoring], or [None] for the early return. *)
Definition score_bundle (bb : Buzzboard) (original_query : string)
    (relaxed : bool) : option Scoring :=
  let s1 := local_presence_clause original_query relaxed
              (local_presence_score bb) base_scoring in
  match sem_clause original_query relaxed (sem_score bb) s1 with
  | None => None
  | Some s2 =>
      let s3 := {| relevance := relevance s2;
                   gaps := (gaps s2 ++ general_gaps bb)%list;
                   opps := opps s2 |} in
      Some (relaxed_bonus relaxed s3)
  end.

(** [_analyze_prospect(row, original_query, relaxed)] *)
Definition _analyze_prospect `{Library} (row : Row) (original_query : string)
    (relaxed : bool) : Res ResultDict :=
  bb ← buzzboard_of (buzz row);
  match score_bundle bb original_query relaxed with
  | None =>
      Ok (FilteredOut (cells row !! "Prospect Business Name")
            "Filtered out - No Google Ads activity found" 0)
  | Some s =>
      Ok (Full
        {| prospect_business_name := cells row !! "Prospect Business Name";
           primary_category := cells row !! "Primary Category";
           location := default "" (cells row !! "City") ++ ", " ++
                       default "" (cells row !! "State");
           local_presence := local_presence_score bb;
           sem_activity := if 0 <? sem_score bb then "Active" else "None";
           key_gaps := if is_empty (gaps s) then "Strong Digital Presence"
                       else join "; " (gaps s);
           opportunities := if is_empty (opps s) then "Maintain Current Strategy"
                            else join "; " (opps s);
           match_type := if relaxed then "Relaxed" else "Strict";
           relevance_score := relevance s |})
  end.

(** ** [_try_broader_search] and [find_prospects_hybrid] *)

(** [self.df['Primary Category']]: a [KeyError] without that column. *)
Definition category_column (df : DataFrame) : Res (list string) :=
  if bool_decide ("Primary Category" ∈ columns df)
  then Ok (map (fun r => default "" (cells r !! "Primary Category")) (rows df))
  else Raise (KeyError "Primary Category").

(** One keyword block of [_try_broader_search]: when the query holds
    [stem], the relaxed analysis of the first five rows whose category
    contains [pat]. *)
Definition keyword_matches `{Library} (df : DataFrame) (query : string)
    (stem pat : string) : Res (list ResultDict) :=
  if PyStr.contains stem (PyStr.lower query) then
    _ ← category_column df;
    m ← str_contains pat;
    let found :=
      List.filter (fun r => m (default "" (cells r !! "Primary Category")))
        (rows df) in
    mapM (fun r => _analyze_prospect r query true) (take 5 found)
  else Ok [].

Definition _try_broader_search `{Library} (df : DataFrame) (query : string)
  : Res (list ResultDict) :=
  computer ← keyword_matches df query "computer" "Computer";
  contractor ← keyword_matches df query "contractor" "Contract";
  let broader_results := (computer ++ contractor)%list in
  if negb (is_empty broader_results) then Ok (take 10 broader_results)
  else
    cats ← category_column df;
    Ok [Suggestion "No exact matches found" "Try these available categories"
          (value_counts_head10 cats)].

(** [results.sort(key=relevance_score, reverse=True)]: stable, so rows of
    equal score keep their order. *)
Fixpoint insert_desc (x : ResultDict) (l : list ResultDict) : list ResultDict :=
  match l with
  | [] => [x]
  | y :: l' =>
      if get_relevance_score x <? get_relevance_score y
      then y :: insert_desc x l'
      else x :: l
  end.

Definition sort_desc (l : list ResultDict) : list ResultDict :=
  foldr insert_desc [] l.

(** The filter extraction: [extractor_chain.invoke(..).filters]. *)
Definition Extractor : Type := string -> Res (list FilterCondition).

(** Steps 4 to 6 of [find_prospects_hybrid], on the rows that passed the
    filters. *)
Definition score_and_rank `{Library} (filtered : list Row) (query : string)
  : Res (list ResultDict) :=
  strict ← mapM (fun r => _analyze_prospect r query false) filtered;
  let results := List.filter (fun a => 0 <? get_relevance_score a) strict in
  results ← (if is_empty results
             then mapM (fun r => _analyze_prospect r query true) (take 5 filtered)
             else Ok results);
  let sorted := sort_desc results in
  Ok (if is_empty sorted
      then [StatusRecord "No prospects found matching criteria"]
      else take 10 sorted).

Definition find_prospects_hybrid `{Library} (extractor_chain : Extractor)
    (df : DataFrame) (query : string) : Res (list ResultDict) :=
  match extractor_chain query with
  | Raise _ => Ok [StatusRecord "Failed to process query"]
  | Ok filters =>
      filtered ← apply_filters (columns df) (rows df) filters;
      if is_empty filtered then _try_broader_search df query
      else score_and_rank filtered query
  end.

(** ** The detail analyzer: [get_prospect_details] and its helpers *)

(** [_calculate_seo_score] *)
Definition _calculate_seo_score (bb : Buzzboard) : Z :=
  let score :=
    (if is_yes bb "Google Places" then 4 else 0) +
    (if is_yes bb "SEM" then 3 else 0) +
    (if number_above (default (VInt 0) (bb !! "Reviews (local and social)")) 20
     then 3 else 0) in
  Z.min score 10.

(** [_calculate_social_score] *)
Definition _calculate_social_score (bb : Buzzboard) : Z :=
  let score :=
    (if is_yes bb "FB latest_posts" then 5 else 0) +
    (if is_yes bb "Instagram" then 3 else 0) +
    (if is_yes bb "Twitter" then 2 else 0) in
  Z.min score 10.

(** [d_score = (seo_score + social_score) / 2] *)
Definition d_score (bb : Buzzboard) : Q :=
  (inject_Z (_calculate_seo_score bb + _calculate_social_score bb) / 2)%Q.

Record Swot : Type := {
  Strengths : list string;
  Weaknesses : list string;
  Opportunities : list string;
  Threats : list string
}.

(** The list [strengths] of [_generate_swot_analysis] before the fallback of
    the [return]. *)
Definition signal_strengths (bb : Buzzboard) : list string :=
  ((if is_yes bb "Google Places"
    then ["Strong local presence with Google Places listing"] else []) ++
   (if is_yes bb "SEM" then ["Active in paid search advertising"] else []) ++
   (if is_yes bb "FB latest_posts"
    then ["Maintains active social media presence"] else []))%list.

Definition signal_weaknesses (bb : Buzzboard) : list string :=
  ((if negb (is_yes bb "Google Places")
    then ["Missing Google Places listing - invisible in local searches"] else []) ++
   (if negb (is_yes bb "SEM")
    then ["No paid search presence - missing potential leads"] else []) ++
   (if negb (is_yes bb "FB latest_posts")
    then ["Inactive social media - poor customer engagement"] else []))%list.

Definition signal_opportunities (bb : Buzzboard) : list string :=
  ((if is_empty (signal_strengths bb)
    then ["Complete digital transformation opportunity"] else []) ++
   (if negb (is_yes bb "Google Places")
    then ["Establish Google My Business for local visibility"] else []) ++
   (if negb (is_yes bb "SEM")
    then ["Launch targeted Google Ads campaigns"] else []))%list.

(** [_generate_swot_analysis]; its second argument is not read. *)
Definition _generate_swot_analysis (bb : Buzzboard) (prospect_data : Row) : Swot :=
  {| Strengths := if is_empty (signal_strengths bb)
                  then ["Limited digital presence"] else signal_strengths bb;
     Weaknesses := signal_weaknesses bb;
     Opportunities := signal_opportunities bb;
     Threats := ["Competitors with stronger digital presence"] |}.

(** [_get_engagement_strategy]; [k in str(swot['Weaknesses'])] holds when
    one of the weaknesses holds [k]. *)
Definition _get_engagement_strategy (swot : Swot) : string :=
  if (3 <=? List.length (Weaknesses swot))%nat then
    "Lead with comprehensive digital marketing audit. Focus on immediate wins like Google My Business setup."
  else if existsb (PyStr.contains "Google Places") (Weaknesses swot) then
    "Start conversation around local SEO and Google My Business optimization."
  else if existsb (PyStr.contains "SEM") (Weaknesses swot) then
    "Position paid search solutions to capture competitor traffic."
  else "Focus on optimization and advanced digital marketing strategies.".

Record Timing : Type := {
  optimal_timing : string;
  urgency : string;
  follow_up_schedule : string
}.

(** [_get_optimal_timing] *)
Definition _get_optimal_timing (prospect_data : Row) (swot_analysis : Swot) : Timing :=
  let category := PyStr.lower (default "" (cells prospect_data !! "Primary Category")) in
  let gaps_count := List.length (Weaknesses swot_analysis) in
  let '(best_days, best_time, reason) :=
    if existsb (fun word => PyStr.contains word category)
         ["computer"; "it"; "tech"; "software"]
    then ("Tuesday-Thursday", "10am-2pm EST",
          "B2B tech businesses most responsive mid-week")
    else if existsb (fun word => PyStr.contains word category)
              ["contractor"; "plumbing"; "electrical"]
    then ("Monday-Wednesday", "8am-11am EST",
          "Service businesses check emails early morning")
    else ("Tuesday-Thursday", "10am-3pm EST", "Standard business hours") in
  let '(urg, follow_up) :=
    if (3 <=? gaps_count)%nat then ("Send immediately", "Follow up in 3-5 days")
    else if (2 <=? gaps_count)%nat then ("Send within 24 hours", "Follow up in 1 week")
    else ("Send within 2-3 days", "Follow up in 2 weeks") in
  {| optimal_timing := best_days ++ ", " ++ best_time ++ " - " ++ reason;
     urgency := urg;
     follow_up_schedule := follow_up |}.

(** ** [_analyze_market_trends] *)

(** The divisions a computation performs are recorded, so that what is
    divided by what can be stated. *)
Inductive Op : Type :=
  | Divide (num den : Z).

Definition Eff (A : Type) : Type := (list Op * Res A)%type.

Definition eff_ret {A : Type} (a : A) : Eff A := ([], Ok a).

Definition eff_bind {A B : Type} (m : Eff A) (k : A -> Eff B) : Eff B :=
  match m with
  | (t, Ok a) => let '(t', r) := k a in ((t ++ t')%list, r)
  | (t, Raise e) => (t, Raise e)
  end.

#[global] Instance eff_mbind : MBind Eff := fun A B k m => eff_bind m k.
#[global] Instance eff_mret : MRet Eff := fun A a => eff_ret a.

Definition lift {A : Type} (m : Res A) : Eff A := ([], m).

(** [a / b] on two [int]: a [ZeroDivisionError] when [b] is 0. *)
Definition truediv (a b : Z) : Eff Q :=
  ([Divide a b],
   if b =? 0 then Raise ZeroDivisionError else Ok (inject_Z a / inject_Z b)%Q).

(** The statements of the ["trends"] list; a percentage is kept as the
    number the text shows rounded. *)
Inductive Trend : Type :=
  | LimitedMarketData
  | HighGooglePlacesAdoption (percent : Q) (category : string)
  | GrowingSemUsage (percent : Q)
  | LowSocialPresence (percent : Q)
  | StandardAdoption.

(** The statements of the ["competitors"] list. *)
Inductive CompetitorNote : Type :=
  | NeedsMoreData
  | SimilarBusinesses (n : Z) (location : string)
  | StrongLocalSeo
  | MajorityPaidSearch.

Record MarketAnalysis : Type := {
  trends : list Trend;
  competitors : list CompetitorNote
}.

Definition limited_market : MarketAnalysis :=
  {| trends := [LimitedMarketData]; competitors := [NeedsMoreData] |}.

(** [self.df[(self.df['Primary Category'] == category) &
    (self.df['State'] == location)]] *)
Definition similar_businesses (df : DataFrame) (category location : string)
  : Res (list Row) :=
  if negb (bool_decide ("Primary Category" ∈ columns df))
  then Raise (KeyError "Primary Category")
  else if negb (bool_decide ("State" ∈ columns df))
  then Raise (KeyError "State")
  else Ok (List.filter
             (fun r => String.eqb (default "" (cells r !! "Primary Category")) category
                       && String.eqb (default "" (cells r !! "State")) location)
             (rows df)).

(** Lines 379-393: the three adoption counters over the peer rows. *)
Fixpoint count_adoption `{Library} (peers : list Row) (acc : Z * Z * Z)
  : Res (Z * Z * Z) :=
  match peers with
  | [] => Ok acc
  | row :: rest =>
      bb ← buzzboard_of (buzz row);
      let '(gp, sem, social) := acc in
      count_adoption rest
        (if is_yes bb "Google Places" then gp + 1 else gp,
         if is_yes bb "SEM" then sem + 1 else sem,
         if is_yes bb "FB latest_posts" then social + 1 else social)
  end.

(** [adoption / total_similar * 100] *)
Definition percent_of (adoption total_similar : Z) : Eff Q :=
  ratio ← truediv adoption total_similar;
  mret (ratio * 100)%Q.

Definition above (x : Q) (bound : Z) : bool := negb (Qle_bool x (inject_Z bound)).
Definition below (x : Q) (bound : Z) : bool := negb (Qle_bool (inject_Z bound) x).

Definition _analyze_market_trends `{Library} (df : DataFrame) (prospect_data : Row)
  : Eff MarketAnalysis :=
  let category := default "" (cells prospect_data !! "Primary Category") in
  let location := default "" (cells prospect_data !! "State") in
  peers ← lift (similar_businesses df category location);
  let total_similar := Z.of_nat (List.length peers) in
  if total_similar <=? 1 then mret limited_market
  else
    '(gp, sem, social) ← lift (count_adoption peers (0, 0, 0));
    gp_percent ← percent_of gp total_similar;
    sem_percent ← percent_of sem total_similar;
    social_percent ← percent_of social total_similar;
    let found :=
      ((if above gp_percent 70
        then [HighGooglePlacesAdoption gp_percent category] else []) ++
       (if above sem_percent 50 then [GrowingSemUsage sem_percent] else []) ++
       (if below social_percent 30
        then [LowSocialPresence social_percent] else []))%list in
    let notes :=
      ([SimilarBusinesses (total_similar - 1) location] ++
       (if above gp_percent 80 then [StrongLocalSeo] else []) ++
       (if above sem_percent 60 then [MajorityPaidSearch] else []))%list in
    mret {| trends := if is_empty found then [StandardAdoption] else found;
            competitors := notes |}.

(** The report of [get_prospect_details]. *)
Record Details : Type := {
  det_name : option string;
  det_category : option string;
  det_location : string;
  det_d_score : Q;
  det_seo_score : Z;
  det_social_score : Z;
  det_swot : Swot;
  det_market_trends : list Trend;
  det_competitors : list CompetitorNote;
  det_timing : Timing;
  det_engagement : string
}.

(** [get_prospect_details(prospect_name)]: [None] when no row bears the
    name. *)
Definition get_prospect_details `{Library} (df : DataFrame) (prospect_name : string)
  : Eff (option Details) :=
  if negb (bool_decide ("Prospect Business Name" ∈ columns df))
  then lift (Raise (KeyError "Prospect Business Name"))
  else
    match List.filter
            (fun r => String.eqb
                        (PyStr.lower (default "" (cells r !! "Prospect Business Name")))
                        (PyStr.lower prospect_name))
            (rows df) with
    | [] => mret None
    | prospect_data :: _ =>
        bb ← lift (buzzboard_of (buzz prospect_data));
        let swot := _generate_swot_analysis bb prospect_data in
        market_analysis ← _analyze_market_trends df prospect_data;
        mret (Some
          {| det_name := cells prospect_data !! "Prospect Business Name";
             det_category := cells prospect_data !! "Primary Category";
             det_location := default "" (cells prospect_data !! "City") ++ ", " ++
                             default "" (cells prospect_data !! "State");
             det_d_score := d_score bb;
             det_seo_score := _calculate_seo_score bb;
             det_social_score := _calculate_social_score bb;
             det_swot := swot;
             det_market_trends := trends market_analysis;
             det_competitors := competitors market_analysis;
             det_timing := _get_optimal_timing prospect_data swot;
             det_engagement := _get_engagement_strategy swot |})
    end.

(** ** Sample data *)

(** A [Library] for the examples: no cell text parses, and [str_contains]
    is the case-insensitive substring test it amounts to on a pattern free
    of regular-expression operators. *)
Definition sample_library : Library :=
  {| literal_eval := fun _ => Raise (ValueError "malformed node or string");
     str_contains := fun pat =>
       Ok (fun s => PyStr.contains (PyStr.lower pat) (PyStr.lower s));
     value_counts_head10 := fun col =>
       take 10 (map (fun c => (c, count_occ string_dec col c)) (remove_dups col)) |}.

Definition sample_row (name category city state : string) (bb : Buzzboard) : Row :=
  {| cells := {[ "Prospect Business Name" := name;
                 "Primary Category" := category;
                 "City" := city;
                 "State" := state ]};
     buzz := CellDict bb |}.

Definition sample_columns : list string :=
  ["Prospect Business Name"; "Primary Category"; "City"; "State";
   "BuzzBoard Data Parsed"].

(** A business with a Google Places listing and paid search. *)
Definition bb_places_and_sem : Buzzboard :=
  {[ "Google Places" := VStr "Yes"; "SEM" := VStr "Yes" ]}.

(** A business with all three core signals. *)
Definition bb_all_yes : Buzzboard :=
  {[ "Google Places" := VStr "Yes"; "SEM" := VStr "Yes";
     "FB latest_posts" := VStr "Yes" ]}.

(** A business with no signal at all. *)
Definition bb_nothing : Buzzboard := ∅.

Definition acme : Row :=
  sample_row "Acme IT" "Computer Contractors" "Austin" "TX" bb_places_and_sem.

Definition bolt : Row :=
  sample_row "Bolt Plumbing" "Plumbing" "Dallas" "TX" bb_nothing.

Definition sample_df : DataFrame :=
  {| columns := sample_columns; rows := [acme; bolt] |}.

(** A second computer contractor of Texas, without any signal. *)
Definition cobalt : Row :=
  sample_row "Cobalt Networks" "Computer Contractors" "Houston" "TX" bb_nothing.

Definition peer_df : DataFrame :=
  {| columns := sample_columns; rows := [acme; bolt; cobalt] |}.

Definition sample_state : GraphState :=
  {| messages := ["Current query: find prospects"];
     conversation_history := None;
     user_context := None |}.

(** How the examples render the list of the last queries. *)
Definition sample_repr (qs : list string) : string :=
  "[" ++ join ", " (map (fun q => "'" ++ q ++ "'") qs) ++ "]".

Definition sample_node (text : string) : NodeFunc :=
  fun _ => Ok {| out_messages := [text] |}.

(** A Classifier Port that fails on every call. *)
Definition failing_chain : RouterChain :=
  fun _ _ => Raise (PortError "rate limit exceeded").

(** The compiled graph over a given Classifier Port. *)
Definition sample_app (router_chain : RouterChain) : App :=
  create_workflow (sample_node "prospects") (sample_node "analysis")
    (sample_node "draft") (fun state => route_requests state router_chain).

(** ** agents/base.py and the node wrappers of agents/ *)

(** An agent executor as [agent_node] reads it:
    [str(agent.invoke(state)["output"])]. *)
Definition AgentExecutor : Type := GraphState -> Res string.

(** [agent_node(state, agent, name)]: one [AIMessage] with the output as
    content; the [name] only labels the message. *)
Definition agent_node (state : GraphState) (agent : AgentExecutor) (name : string)
  : Res NodeOutput :=
  output ← agent state;
  Ok {| out_messages := [output] |}.

Definition prospecting_node (state : GraphState) (agent : AgentExecutor)
  : Res NodeOutput := agent_node state agent "ProspectingAgent".

Definition insights_node (state : GraphState) (agent : AgentExecutor)
  : Res NodeOutput := agent_node state agent "InsightsAgent".

Definition communication_node (state : GraphState) (agent : AgentExecutor)
  : Res NodeOutput := agent_node state agent "CommunicationAgent".

(** ** main.py *)

(** The graph [SalesSystem.initialize_system] compiles: the three agents
    behind their node functions, and the router over its chain. *)
Definition build_app (prospecting_agent insights_agent communication_agent : AgentExecutor)
    (router_chain : RouterChain) : App :=
  create_workflow
    (fun state => prospecting_node state prospecting_agent)
    (fun state => insights_node state insights_agent)
    (fun state => communication_node state communication_agent)
    (fun state => route_requests state router_chain).

(** [SalesSystem.run_query]: [None] without touching the memory when the
    app was not built, [run_conversation] otherwise. *)
Definition run_query (repr_queries : list string -> string) (mem : Memory)
    (now : string) (app : option App) (q : string)
  : Memory * Res (option (option NodeOutput)) :=
  match app with
  | None => (mem, Ok None)
  | Some a =>
      let '(mem', r) := run_conversation repr_queries mem now (Some a) q in
      (mem', out ← r; Ok (Some out))
  end.

(** What [run_test_mode] prints for one query. *)
Inductive TestLine : Type :=
  | ResultLine (text : string)
  | NoResultReturned
  | ErrorLine (e : Exn).

(** The body of the loop of [run_test_mode]: the [try] around [run_query]
    and the line printed. The first message of the output is shown, cut to
    200 characters. *)
Definition test_query (repr_queries : list string -> string) (mem : Memory)
    (now : string) (app : option App) (q : string) : Memory * TestLine :=
  let '(mem', r) := run_query repr_queries mem now app q in
  (mem',
   match r with
   | Raise e => ErrorLine e
   | Ok None | Ok (Some None) => NoResultReturned
   | Ok (Some (Some value)) =>
       match out_messages value with
       | [] => ErrorLine IndexError
       | first :: _ => ResultLine (String.substring 0 200 first ++ "...")
       end
   end).

Definition test_queries : list string :=
  ["Find computer contractors in Texas";
   "Show me businesses with low local presence";
   "Draft a personalized email for a tech business"].

(** The loop of [run_test_mode] over queries, each at its own time. *)
Fixpoint run_test_loop (repr_queries : list string -> string) (mem : Memory)
    (app : option App) (timed : list (string * string)) : Memory * list TestLine :=
  match timed with
  | [] => (mem, [])
  | (now, q) :: rest =>
      let '(mem1, line) := test_query repr_queries mem now app q in
      let '(mem2, lines) := run_test_loop repr_queries mem1 app rest in
      (mem2, line :: lines)
  end.

(** [run_test_mode(sales_system)], the three calls happening at the times
    [now1], [now2], [now3]. *)
Definition run_test_mode (repr_queries : list string -> string) (mem : Memory)
    (app : option App) (now1 now2 now3 : string) : Memory * list TestLine :=
  run_test_loop repr_queries mem app
    (zip [now1; now2; now3] test_queries).

(** The route a call of the router ends with, without the state. *)
Definition route_outcome (r : Res (GraphState * Route)) : Res Route :=
  match r with
  | Ok (_, route) => Ok route
  | Raise e => Raise e
  end.

(** Rows in non-increasing order of relevance. *)
Definition ranked (l : list ResultDict) : Prop :=
  forall i j x y, (i < j)%nat -> l !! i = Some x -> l !! j = Some y ->
    get_relevance_score y <= get_relevance_score x.

(** The same, read from the head: every item is at least as relevant as
    all the items after it. *)
Fixpoint descending (l : list ResultDict) : Prop :=
  match l with
  | [] => True
  | x :: rest =>
      Forall (fun y => get_relevance_score y <= get_relevance_score x) rest /\
      descending rest
  end.

(** What a caller of [find_prospects_hybrid] can be shown: a full record of
    relevance at least 1, the status of a failed extraction, or the
    suggestion of categories. *)
Definition presentable (d : ResultDict) : Prop :=
  match d with
  | Full a => 1 <= relevance_score a
  | FilteredOut _ _ _ => False
  | StatusRecord status => status = "Failed to process query"
  | Suggestion _ _ _ => True
  end.

(** The rows of a list with a given relevance, in their order. *)
Definition with_relevance (k : Z) (l : list ResultDict) : list ResultDict :=
  List.filter (fun d => get_relevance_score d =? k) l.

(** A trend statement whose percentage is on the side of its threshold and
    between 0 and 100. *)
Definition trend_in_range (t : Trend) : Prop :=
  match t with
  | HighGooglePlacesAdoption p _ => (inject_Z 70 < p)%Q /\ (p <= inject_Z 100)%Q
  | GrowingSemUsage p => (inject_Z 50 < p)%Q /\ (p <= inject_Z 100)%Q
  | LowSocialPresence p => (inject_Z 0 <= p)%Q /\ (p < inject_Z 30)%Q
  | LimitedMarketData | StandardAdoption => True
  end.

(** How many of the three core signals are 'Yes'. *)
Definition core_signals_present (bb : Buzzboard) : Z :=
  Z.b2z (is_yes bb "Google Places") + Z.b2z (is_yes bb "SEM") +
  Z.b2z (is_yes bb "FB latest_posts").

(** A text of ASCII characters only: every character is below 128. On such
    a text [str.lower] is the mapping of the letters A to Z alone. *)
Fixpoint is_ascii (s : string) : bool :=
  match s with
  | EmptyString => true
  | String c s' => (N_of_ascii c <? 128)%N && is_ascii s'
  end.

(** The name a row bears: [row.get('Prospect Business Name')], the empty
    text when the cell is missing. *)
Definition row_name (r : Row) : string :=
  default "" (cells r !! "Prospect Business Name").

(** The test of [get_prospect_details] on the name of a row. *)
Definition bears_name (prospect_name : string) (r : Row) : bool :=
  String.eqb (PyStr.lower (default "" (cells r !! "Prospect Business Name")))
    (PyStr.lower prospect_name).

(** A filter that can take the category rescue: [equals] on the category. *)
Definition rescuing (f : FilterCondition) : Prop :=
  operator f = equals /\ field f = "Primary Category".

(** A row as the loader leaves it: its BuzzBoard cell is a dict. *)
Definition parsed_row (r : Row) : Prop := exists d, buzz r = CellDict d.

(** Two rows on which [equals] filters do not commute. *)
Definition shop_ca : Row :=
  sample_row "Byte Shop" "Computer" "Fresno" "CA" bb_nothing.

(** A sample agent: it answers with a fixed text. *)
Definition sample_agent (text : string) : AgentExecutor := fun _ => Ok text.

(* ================================================================= *)
(** * Properties *)

Example lower_mixed : PyStr.lower "SalesRep|INSIGHTS" = "salesrep|insights".
Proof. reflexivity. Qed.

Example strip_both : PyStr.strip "  insights " = "insights".
Proof. reflexivity. Qed.

Example split_two : PyStr.split "|" "a|b" = ["a"; "b"].
Proof. reflexivity. Qed.

Example split_three : PyStr.split "|" "a||b" = ["a"; ""; "b"].
Proof. reflexivity. Qed.

(** ** Strings *)

Lemma startswith_spec (p s : string) :
  PyStr.startswith p s = true <-> exists t, s = p ++ t.
Proof.
  revert s. induction p as [|a p IH]; intros s; simpl.
  - split; [intros _; exists s; reflexivity | reflexivity].
  - destruct s as [|b s]; simpl.
    + split; [discriminate | intros [t Ht]; discriminate].
    + rewrite andb_true_iff, IH. split.
      * intros [Hab [t ->]]. apply Ascii.eqb_eq in Hab. subst b. exists t. reflexivity.
      * intros [t Ht]. injection Ht as -> ->. split; [apply Ascii.eqb_refl | exists t; reflexivity].
Qed.

(** [p in s] holds exactly when [s] is some text, [p], then some text. *)
Lemma contains_spec (p s : string) :
  PyStr.contains p s = true <-> exists a b, s = a ++ p ++ b.
Proof.
  induction s as [|c s IH].
  - simpl. rewrite orb_false_r, startswith_spec. split.
    + intros [t Ht]. exists "", t. exact Ht.
    + intros [a [b Hab]]. destruct a as [|x a]; [exists b; exact Hab | discriminate].
  - cbn [PyStr.contains]. rewrite orb_true_iff, startswith_spec, IH. split.
    + intros [[t Ht] | [a [b Hab]]].
      * exists "", t. exact Ht.
      * exists (String c a), b. simpl. rewrite Hab. reflexivity.
    + intros [a [b Hab]]. destruct a as [|x a].
      * left. exists b. exact Hab.
      * right. simpl in Hab. injection Hab as -> ->. exists a, b. reflexivity.
Qed.

Lemma split_length (sep : ascii) (s : string) :
  List.length (PyStr.split sep s) = S (PyStr.count sep s).
Proof.
  induction s as [|c s IH]; simpl; [reflexivity|].
  destruct (Ascii.eqb c sep); simpl.
  - rewrite IH. reflexivity.
  - destruct (PyStr.split sep s) as [|h t]; simpl in *; [discriminate | exact IH].
Qed.

Lemma contains_char_count (c : ascii) (s : string) :
  PyStr.contains (String c "") s = negb (PyStr.count c s =? 0)%nat.
Proof.
  induction s as [|a s IH]; [reflexivity|].
  cbn [PyStr.contains PyStr.startswith PyStr.count]. rewrite IH.
  rewrite Ascii.eqb_sym. destruct (Ascii.eqb a c); simpl.
  - reflexivity.
  - destruct s; reflexivity.
Qed.

(** Splitting at a separator and joining with it gives the text back. *)
Lemma join_cons (sep h : string) (t : list string) :
  join sep (h :: t) = match t with [] => h | _ :: _ => h ++ sep ++ join sep t end.
Proof. destruct t; reflexivity. Qed.

Lemma join_split (sep : ascii) (s : string) :
  join (String sep "") (PyStr.split sep s) = s.
Proof.
  induction s as [|c s IH]; [reflexivity|].
  cbn [PyStr.split]. pose proof (split_length sep s) as Hlen.
  destruct (PyStr.split sep s) as [|h t]; [discriminate|].
  destruct (Ascii.eqb_spec c sep) as [->|Hne].
  - rewrite join_cons, IH. reflexivity.
  - rewrite join_cons. rewrite join_cons in IH.
    destruct t as [|h' t']; rewrite <- IH; reflexivity.
Qed.

(** ** The router *)

Lemma select_route_cascade (token : string) :
  (PyStr.contains "prospecting" token = true -> select_route token = prospecting) /\
  (PyStr.contains "prospecting" token = false ->
   PyStr.contains "insights" token = true -> select_route token = insights) /\
  (PyStr.contains "prospecting" token = false ->
   PyStr.contains "insights" token = false ->
   PyStr.contains "communication" token = true -> select_route token = communication) /\
  (PyStr.contains "prospecting" token = false ->
   PyStr.contains "insights" token = false ->
   PyStr.contains "communication" token = false -> select_route token = route_end).
Proof.
  unfold select_route. repeat split; intros;
    repeat match goal with H : _ = _ |- _ => rewrite H; clear H end; reflexivity.
Qed.

(** A response without ['|'] is its own route token, and the state is left
    as it was. *)
Lemma parse_response_no_pipe (state : GraphState) (result : string) :
  PyStr.count "|" result = 0%nat ->
  parse_response state result = Ok (state, PyStr.lower result).
Proof.
  intros H. unfold parse_response.
  rewrite contains_char_count, H. reflexivity.
Qed.

(** A response with one ['|'] is [user_type|route]: the token is the
    stripped, lower-cased [route], and [user_type] is stored stripped. *)
Lemma parse_response_one_pipe (state : GraphState) (result : string) :
  PyStr.count "|" result = 1%nat ->
  exists user_type route,
    result = user_type ++ "|" ++ route /\
    parse_response state result =
      Ok ({| messages := messages state;
             conversation_history := conversation_history state;
             user_context :=
               Some (<["user_type" := PyStr.strip user_type]>
                       (default ∅ (user_context state))) |},
          PyStr.lower (PyStr.strip route)).
Proof.
  intros H. unfold parse_response.
  rewrite contains_char_count, H. cbn [Nat.eqb negb].
  pose proof (split_length "|" result) as Hlen.
  pose proof (join_split "|" result) as Hjoin.
  rewrite H in Hlen.
  destruct (PyStr.split "|" result) as [|u [|r [|x t]]]; try discriminate.
  exists u, r. split; [symmetry; exact Hjoin | reflexivity].
Qed.

(** With two or more ['|'] the unpacking of the split fails. *)
Lemma parse_response_many_pipes (state : GraphState) (result : string) :
  (2 <= PyStr.count "|" result)%nat ->
  parse_response state result = Raise (ValueError "too many values to unpack").
Proof.
  intros H. unfold parse_response.
  rewrite contains_char_count.
  destruct (PyStr.count "|" result) as [|[|n]] eqn:Hc; try lia.
  cbn [Nat.eqb negb].
  pose proof (split_length "|" result) as Hlen. rewrite Hc in Hlen.
  destruct (PyStr.split "|" result) as [|u [|r [|x t]]]; try discriminate.
  reflexivity.
Qed.

Lemma route_requests_unfold (state : GraphState) (router_chain : RouterChain)
    (last_message result : string) :
  last (messages state) = Some last_message ->
  router_chain last_message (history_window (conversation_history state)) = Ok result ->
  route_requests state router_chain =
    match parse_response state result with
    | Ok (state', route) => Ok (state', select_route route)
    | Raise e => Raise e
    end.
Proof.
  intros Hm Hc. unfold route_requests. rewrite Hm, Hc. cbn.
  destruct (parse_response state result) as [[s r]|e]; reflexivity.
Qed.

(** With at most one ['|'] the router returns the route of some token. *)
Lemma route_selection_on_token_aux (state : GraphState) (router_chain : RouterChain)
    (last_message result : string) :
  last (messages state) = Some last_message ->
  router_chain last_message (history_window (conversation_history state)) = Ok result ->
  (PyStr.count "|" result <= 1)%nat ->
  exists state' token,
    route_requests state router_chain = Ok (state', select_route token).
Proof.
  intros Hm Hc Hn.
  rewrite (route_requests_unfold _ _ _ _ Hm Hc).
  destruct (PyStr.count "|" result) as [|[|n]] eqn:Hcount; [| |lia].
  - rewrite (parse_response_no_pipe state result Hcount). eauto.
  - destruct (parse_response_one_pipe state result Hcount)
      as (user_type & route & Hres & Hparse).
    rewrite Hparse. eauto.
Qed.

(** C1, as stated, fails: the response [prospecting|insights] holds both
    keywords, and its route is insights, since only the text after the
    ['|'] is searched. *)
Lemma both_keywords_route_insights :
  PyStr.contains "prospecting" (PyStr.lower "prospecting|insights") = true /\
  PyStr.contains "insights" (PyStr.lower "prospecting|insights") = true /\
  (exists state',
     route_requests sample_state (fun _ _ => Ok "prospecting|insights")
       = Ok (state', insights)) /\
  (forall state',
     route_requests sample_state (fun _ _ => Ok "prospecting|insights")
       <> Ok (state', prospecting)).
Proof.
  repeat split; try reflexivity.
  - eexists. vm_compute. reflexivity.
  - intros state' H. vm_compute in H. discriminate H.
Qed.

(** C1, amended: for a response with at most one ['|'], the route is the
    keyword cascade on the route token, prospecting first, then insights,
    then communication, else end. The token is the lower-cased response
    when it has no ['|'], and the stripped, lower-cased text after the ['|']
    when it has one; a token that holds both prospecting and insights gives
    prospecting. *)
Theorem route_selection_on_token (state : GraphState) (router_chain : RouterChain)
    (last_message result : string) :
  last (messages state) = Some last_message ->
  router_chain last_message (history_window (conversation_history state)) = Ok result ->
  (PyStr.count "|" result <= 1)%nat ->
  exists state' token,
    route_requests state router_chain = Ok (state', select_route token) /\
    (PyStr.count "|" result = 0%nat -> token = PyStr.lower result /\ state' = state) /\
    (PyStr.count "|" result = 1%nat ->
     exists user_type route,
       result = user_type ++ "|" ++ route /\
       token = PyStr.lower (PyStr.strip route)) /\
    (PyStr.contains "prospecting" token = true -> select_route token = prospecting) /\
    (PyStr.contains "prospecting" token = false ->
     PyStr.contains "insights" token = true -> select_route token = insights) /\
    (PyStr.contains "prospecting" token = false ->
     PyStr.contains "insights" token = false ->
     PyStr.contains "communication" token = true ->
     select_route token = communication) /\
    (PyStr.contains "prospecting" token = false ->
     PyStr.contains "insights" token = false ->
     PyStr.contains "communication" token = false ->
     select_route token = route_end).
Proof.
  intros Hm Hc Hn.
  rewrite (route_requests_unfold _ _ _ _ Hm Hc).
  destruct (PyStr.count "|" result) as [|[|n]] eqn:Hcount; [| |lia].
  - rewrite (parse_response_no_pipe state result Hcount).
    exists state, (PyStr.lower result).
    split; [reflexivity|]. split; [intros _; split; reflexivity|].
    split; [discriminate|]. apply select_route_cascade.
  - destruct (parse_response_one_pipe state result Hcount)
      as (user_type & route & Hres & Hparse).
    rewrite Hparse. eexists _, (PyStr.lower (PyStr.strip route)).
    split; [reflexivity|]. split; [discriminate|].
    split; [intros _; exists user_type, route; split; [exact Hres | reflexivity]|].
    apply select_route_cascade.
Qed.

Lemma route_selection_on_token_witness :
  exists state' token,
    route_requests sample_state (fun _ _ => Ok "SALESREP|insights")
      = Ok (state', select_route token) /\
    (PyStr.contains "prospecting" token = false ->
     PyStr.contains "insights" token = true -> select_route token = insights).
Proof.
  destruct (route_selection_on_token sample_state
              (fun _ _ => Ok "SALESREP|insights")
              "Current query: find prospects" "SALESREP|insights")
    as (state' & token & Hroute & _ & _ & _ & Hins & _).
  - reflexivity.
  - reflexivity.
  - vm_compute. lia.
  - exists state', token. split; [exact Hroute | exact Hins].
Defined.

(** C10: a response with two or more ['|'] makes [route_requests] raise
    the [ValueError] of the two-variable unpacking, and it returns a route
    exactly for the responses with at most one ['|']. *)
Theorem many_pipes_raise (state : GraphState) (router_chain : RouterChain)
    (last_message result : string) :
  last (messages state) = Some last_message ->
  router_chain last_message (history_window (conversation_history state)) = Ok result ->
  ((2 <= PyStr.count "|" result)%nat ->
   route_requests state router_chain
     = Raise (ValueError "too many values to unpack")) /\
  (returns (route_requests state router_chain) <->
   (PyStr.count "|" result <= 1)%nat).
Proof.
  intros Hm Hc.
  assert (Hmany : (2 <= PyStr.count "|" result)%nat ->
                  route_requests state router_chain
                    = Raise (ValueError "too many values to unpack")).
  { intros H. rewrite (route_requests_unfold _ _ _ _ Hm Hc).
    rewrite (parse_response_many_pipes state result H). reflexivity. }
  split; [exact Hmany|]. split.
  - intros [a Ha].
    destruct (le_lt_dec (PyStr.count "|" result) 1) as [Hle|Hgt]; [exact Hle|].
    rewrite (Hmany Hgt) in Ha. discriminate Ha.
  - intros Hle.
    destruct (route_selection_on_token_aux state router_chain last_message result Hm Hc Hle)
      as (state' & token & Hroute).
    exists (state', select_route token). exact Hroute.
Qed.

Lemma many_pipes_raise_witness :
  route_requests sample_state (fun _ _ => Ok "SALESREP|insights|prospecting")
    = Raise (ValueError "too many values to unpack").
Proof.
  apply (many_pipes_raise sample_state
           (fun _ _ => Ok "SALESREP|insights|prospecting")
           "Current query: find prospects" "SALESREP|insights|prospecting").
  - reflexivity.
  - reflexivity.
  - vm_compute. lia.
Defined.

(** ** The turn when the Classifier Port fails *)

(** C9, as stated, fails: with a Classifier Port that raises, the turn
    ends with that exception. The outcome is not the one of a terminate
    route, which is a normal return with no agent output. *)
Lemma failing_classifier_crashes_turn :
  snd (run_conversation sample_repr clear_conversation_memory "2024-01-01T10:00:00"
         (Some (sample_app failing_chain)) "find computer contractors")
    = Raise (PortError "rate limit exceeded") /\
  snd (run_conversation sample_repr clear_conversation_memory "2024-01-01T10:00:00"
         (Some (sample_app (fun _ _ => Ok "SALESREP|end"))) "thank you, goodbye")
    = Ok None.
Proof. split; vm_compute; reflexivity. Qed.

(** C9, amended: when the Classifier Port call of the router raises, no
    caller translates the failure. [route_requests] raises the same
    exception, the compiled graph ends its stream with it and runs no
    handler, and [run_conversation] raises it too, the query being kept in
    the history without a response. *)
Theorem classifier_failure_propagates (repr_queries : list string -> string)
    (mem : Memory) (now q : string)
    (prospecting_node_func insights_node_func communication_node_func : NodeFunc)
    (router_chain : RouterChain) (e : Exn) :
  let h := remember (history mem) q now in
  let state := {| messages := [context_msg repr_queries h q];
                  conversation_history := Some h;
                  user_context := Some (mem_user_context mem) |} in
  let app := create_workflow prospecting_node_func insights_node_func
               communication_node_func
               (fun st => route_requests st router_chain) in
  router_chain (context_msg repr_queries h q) (history_window (Some h)) = Raise e ->
  route_requests state router_chain = Raise e /\
  app state = {| events := []; failure := Some e;
                 user_context_left := mem_user_context mem |} /\
  run_conversation repr_queries mem now (Some app) q
    = ({| history := h; mem_user_context := mem_user_context mem |}, Raise e).
Proof.
  intros h state app Hfail.
  assert (Hroute : route_requests state router_chain = Raise e).
  { unfold route_requests, state. cbn [messages last conversation_history].
    rewrite Hfail. reflexivity. }
  assert (Happ : app state = {| events := []; failure := Some e;
                                user_context_left := mem_user_context mem |}).
  { unfold app, create_workflow. rewrite Hroute. reflexivity. }
  split; [exact Hroute|]. split; [exact Happ|].
  unfold run_conversation. fold h. fold state. rewrite Happ. reflexivity.
Qed.

(** A turn that succeeds, for comparison: the handler output is returned,
    the response is stored with the query, and the user type the router
    read stays in the memory. *)
Example successful_turn :
  run_conversation sample_repr clear_conversation_memory "2024-01-01T10:00:00"
    (Some (sample_app (fun _ _ => Ok "SALESREP|insights"))) "analyze Acme IT"
  = ({| history := [{| query := "analyze Acme IT";
                       timestamp := "2024-01-01T10:00:00";
                       response := Some "analysis" |}];
        mem_user_context := {[ "user_type" := "SALESREP" ]} |},
     Ok (Some {| out_messages := ["analysis"] |})).
Proof. vm_compute. reflexivity. Qed.

Lemma classifier_failure_propagates_witness :
  run_conversation sample_repr clear_conversation_memory "2024-01-01T10:00:00"
    (Some (sample_app failing_chain)) "find computer contractors"
  = ({| history := [{| query := "find computer contractors";
                       timestamp := "2024-01-01T10:00:00";
                       response := None |}];
        mem_user_context := ∅ |},
     Raise (PortError "rate limit exceeded")).
Proof.
  apply (classifier_failure_propagates sample_repr clear_conversation_memory
           "2024-01-01T10:00:00" "find computer contractors"
           (sample_node "prospects") (sample_node "analysis") (sample_node "draft")
           failing_chain (PortError "rate limit exceeded")).
  reflexivity.
Defined.

(** ** The conversation history *)

Section History.
Context {A : Type}.
Implicit Types l : list A.

Lemma last_n_length n l : List.length (last_n n l) = Nat.min n (List.length l).
Proof. unfold last_n. rewrite length_drop. lia. Qed.

Lemma last_n_all n l : (List.length l <= n)%nat -> last_n n l = l.
Proof.
  intros H. unfold last_n.
  replace (List.length l - n)%nat with 0%nat by lia. reflexivity.
Qed.

(** The items [l[-n:]] leaves out are the first ones. *)
Lemma last_n_suffix n l :
  l = (take (List.length l - n) l ++ last_n n l)%list.
Proof. unfold last_n. symmetry. apply take_drop. Qed.

Lemma last_n_snoc n l x :
  last_n (S n) (l ++ [x]) = (last_n n l ++ [x])%list.
Proof.
  unfold last_n. rewrite length_app. cbn [List.length].
  replace (List.length l + 1 - S n)%nat with (List.length l - n)%nat by lia.
  apply drop_app_le. lia.
Qed.

End History.

Lemma remember_last_10 (h : list Entry) (q now : string) :
  remember h q now
    = last_n 10 (h ++ [{| query := q; timestamp := now; response := None |}]).
Proof.
  unfold remember.
  destruct (Nat.ltb_spec 10
              (List.length (h ++ [{| query := q; timestamp := now; response := None |}])))
    as [Hlt|Hle]; [reflexivity|].
  symmetry. apply last_n_all. exact Hle.
Qed.

Lemma set_last_response_snoc (r : string) (l : list Entry) (e : Entry) :
  set_last_response r (l ++ [e])
    = (l ++ [{| query := query e; timestamp := timestamp e; response := Some r |}])%list.
Proof.
  unfold set_last_response. rewrite last_snoc.
  rewrite length_app. cbn [List.length].
  replace (List.length l + 1 - 1)%nat with (List.length l) by lia.
  rewrite take_app_length. reflexivity.
Qed.

(** The loop over the events rewrites the response of the last item and
    nothing else. *)
Lemma consume_events_snoc (evs : list (string * NodeOutput))
    (out : option NodeOutput) (l : list Entry) (e : Entry) :
  exists r, snd (consume_events evs out (l ++ [e]))
            = (l ++ [{| query := query e; timestamp := timestamp e; response := r |}])%list.
Proof.
  revert out e. induction evs as [|[key value] evs IH]; intros out e.
  - exists (response e). destruct e; reflexivity.
  - cbn [consume_events]. rewrite set_last_response_snoc.
    destruct (IH (Some value)
                {| query := query e; timestamp := timestamp e;
                   response := Some (response_text value) |}) as [r Hr].
    exists r. exact Hr.
Qed.

(** The history a turn leaves: the last nine items it found, then the item
    of the current query. *)
Lemma run_conversation_history (repr_queries : list string -> string)
    (mem : Memory) (now : string) (app : option App) (q : string) :
  exists r,
    history (fst (run_conversation repr_queries mem now app q))
      = (last_n 9 (history mem) ++
           [{| query := q; timestamp := now; response := r |}])%list.
Proof.
  unfold run_conversation. rewrite remember_last_10, last_n_snoc.
  destruct app as [app|].
  - match goal with |- context [consume_events ?evs None ?h] =>
      destruct (consume_events_snoc evs None (last_n 9 (history mem))
                  {| query := q; timestamp := now; response := None |}) as [r Hr];
      destruct (consume_events evs None h) as [out h'] eqn:Hce
    end.
    exists r. exact Hr.
  - exists None. reflexivity.
Qed.

Lemma history_fifo_bounded_aux (repr_queries : list string -> string)
    (mem : Memory) (now : string) (app : option App) (q : string) :
  (List.length (history (fst (run_conversation repr_queries mem now app q))) <= 10)%nat.
Proof.
  destruct (run_conversation_history repr_queries mem now app q) as [r Hr].
  rewrite Hr, length_app, last_n_length. cbn [List.length]. lia.
Qed.

(** C8: after a turn the history holds at most 10 items: the most recent
    ones, in order, ending with the item of the current query; the items a
    turn drops are the oldest. *)
Theorem history_fifo_bounded (repr_queries : list string -> string)
    (mem : Memory) (now : string) (app : option App) (q : string) :
  let h' := history (fst (run_conversation repr_queries mem now app q)) in
  (List.length h' <= 10)%nat /\
  map query h' = last_n 10 (map query (history mem) ++ [q]) /\
  map timestamp h' = last_n 10 (map timestamp (history mem) ++ [now]) /\
  (exists dropped r,
     history mem = (dropped ++ last_n 9 (history mem))%list /\
     List.length dropped = (List.length (history mem) - 9)%nat /\
     h' = (last_n 9 (history mem) ++
             [{| query := q; timestamp := now; response := r |}])%list).
Proof.
  intros h'.
  destruct (run_conversation_history repr_queries mem now app q) as [r Hr].
  fold h' in Hr.
  assert (Hmap : forall (B : Type) (f : Entry -> B) (l : list Entry) n,
            map f (last_n n l) = last_n n (map f l)).
  { intros B f l n. unfold last_n. rewrite length_map. symmetry. apply skipn_map. }
  repeat split.
  - rewrite Hr, length_app, last_n_length. cbn [List.length]. lia.
  - rewrite Hr, map_app, last_n_snoc, Hmap. reflexivity.
  - rewrite Hr, map_app, last_n_snoc, Hmap. reflexivity.
  - exists (take (List.length (history mem) - 9) (history mem)), r.
    split; [apply last_n_suffix|]. split; [|exact Hr].
    rewrite length_take. lia.
Qed.

(** Over a whole session the bound holds after every turn, whatever the
    number of turns. *)
Lemma session_history_bounded (repr_queries : list string -> string)
    (turns : list (string * option App * string)) (mem : Memory) :
  (List.length (history mem) <= 10)%nat ->
  (List.length (history (run_session repr_queries mem turns)) <= 10)%nat.
Proof.
  revert mem. induction turns as [|[[now app] q] turns IH]; intros mem Hmem.
  - exact Hmem.
  - cbn [run_session]. apply IH.
    apply (history_fifo_bounded_aux repr_queries mem now app q).
Qed.

(** ** Structured filtering *)

(** An [equals] filter on a column other than the category is the exact
    match, empty or not. *)
Lemma equals_other_field `{Library} (cols : list string) (rs : list Row)
    (fld val : string) :
  fld <> "Primary Category" ->
  fld ∈ cols ->
  apply_filter cols rs {| field := fld; operator := equals; value := val |}
    = Ok (exact_match rs fld (PyStr.lower val)).
Proof.
  intros Hne Hin. unfold apply_filter. cbn [field operator value].
  rewrite bool_decide_eq_true_2 by exact Hin. cbn [negb].
  destruct (String.eqb_spec fld "Primary Category") as [Heq|_]; [contradiction|].
  rewrite andb_false_r. reflexivity.
Qed.

(** A filter on a column the DataFrame does not have is skipped. *)
Lemma filter_unknown_column `{Library} (cols : list string) (rs : list Row)
    (f : FilterCondition) :
  field f ∉ cols -> apply_filter cols rs f = Ok rs.
Proof.
  intros Hnin. unfold apply_filter.
  rewrite bool_decide_eq_false_2 by exact Hnin. reflexivity.
Qed.

(** C2: when [equals] on 'Primary Category' has an empty exact match, the
    filter gives what a [contains] filter on the same value gives, so every
    row of the latter is kept; on any other column [equals] is the exact
    match alone. *)
Theorem category_rescue `{Library} (cols : list string) (rs : list Row)
    (val : string) :
  exact_match rs "Primary Category" (PyStr.lower val) = [] ->
  let by_equals :=
    {| field := "Primary Category"; operator := equals; value := val |} in
  let by_contains :=
    {| field := "Primary Category"; operator := contains; value := val |} in
  apply_filter cols rs by_equals = apply_filter cols rs by_contains /\
  apply_filters cols rs [by_equals] = apply_filters cols rs [by_contains] /\
  (forall kept, apply_filter cols rs by_contains = Ok kept ->
     exists kept', apply_filter cols rs by_equals = Ok kept' /\ kept ⊆ kept') /\
  (forall fld, fld <> "Primary Category" -> fld ∈ cols ->
     apply_filter cols rs {| field := fld; operator := equals; value := val |}
       = Ok (exact_match rs fld (PyStr.lower val))).
Proof.
  intros Hempty by_equals by_contains.
  assert (Hsame : apply_filter cols rs by_equals = apply_filter cols rs by_contains).
  { unfold apply_filter, by_equals, by_contains. cbn [field operator value].
    destruct (bool_decide ("Primary Category" ∈ cols)); cbn [negb]; [|reflexivity].
    rewrite Hempty. cbn [is_empty andb]. rewrite String.eqb_refl.
    destruct (str_contains (PyStr.lower val)) as [m|e]; [|reflexivity].
    cbn.
    destruct (List.filter (fun r => m (column_text r "Primary Category")) rs);
      reflexivity. }
  split; [exact Hsame|]. split.
  - cbn [apply_filters]. rewrite Hsame. reflexivity.
  - split.
    + intros kept Hkept. exists kept. rewrite Hsame. split; [exact Hkept | done].
    + intros fld Hne Hin. apply equals_other_field; assumption.
Qed.

Lemma category_rescue_witness :
  @apply_filter sample_library sample_columns [acme; bolt]
     {| field := "Primary Category"; operator := equals; value := "Computer" |}
  = @apply_filter sample_library sample_columns [acme; bolt]
     {| field := "Primary Category"; operator := contains; value := "Computer" |}.
Proof.
  apply (@category_rescue sample_library sample_columns [acme; bolt] "Computer").
  vm_compute. reflexivity.
Defined.

Example rescue_keeps_acme :
  @apply_filter sample_library sample_columns [acme; bolt]
     {| field := "Primary Category"; operator := equals; value := "Computer" |}
  = Ok [acme].
Proof. vm_compute. reflexivity. Qed.

Example no_rescue_on_state :
  @apply_filter sample_library sample_columns [acme; bolt]
     {| field := "State"; operator := equals; value := "T" |}
  = Ok [].
Proof. vm_compute. reflexivity. Qed.

(** ** Sub-scores *)

Lemma local_presence_score_range (bb : Buzzboard) :
  0 <= local_presence_score bb <= 6.
Proof.
  unfold local_presence_score.
  destruct (is_yes bb "Google Places"), (is_yes bb "FB latest_posts");
    destruct (bb !! "Reviews (local and social)") as [v|];
    try destruct (number_above v 10); lia.
Qed.

Lemma sem_score_values (bb : Buzzboard) :
  sem_score bb = 0 \/ sem_score bb = 3.
Proof. unfold sem_score. destruct (is_yes bb "SEM"); auto. Qed.

Lemma seo_score_range (bb : Buzzboard) : 0 <= _calculate_seo_score bb <= 10.
Proof.
  unfold _calculate_seo_score.
  destruct (is_yes bb "Google Places"), (is_yes bb "SEM"),
    (number_above (default (VInt 0) (bb !! "Reviews (local and social)")) 20); lia.
Qed.

Lemma social_score_range (bb : Buzzboard) : 0 <= _calculate_social_score bb <= 10.
Proof.
  unfold _calculate_social_score.
  destruct (is_yes bb "FB latest_posts"), (is_yes bb "Instagram"),
    (is_yes bb "Twitter"); lia.
Qed.

(** Half of an integer between 0 and 20 is between 0 and 10. *)
Lemma half_range (z : Z) :
  0 <= z <= 20 -> (0 <= inject_Z z / 2)%Q /\ (inject_Z z / 2 <= 10)%Q.
Proof.
  intros Hz. unfold Qle, Qdiv, Qmult, Qinv, inject_Z. cbn. lia.
Qed.

(** C5: the local-presence sub-score lies in 0..6, the SEO and the social
    sub-scores in 0..10, and the composite digital score, their mean, in
    0..10. *)
Theorem score_bounds (bb : Buzzboard) :
  0 <= local_presence_score bb <= 6 /\
  0 <= _calculate_seo_score bb <= 10 /\
  0 <= _calculate_social_score bb <= 10 /\
  (0 <= d_score bb)%Q /\ (d_score bb <= 10)%Q /\
  (d_score bb * 2 == inject_Z (_calculate_seo_score bb) +
                     inject_Z (_calculate_social_score bb))%Q.
Proof.
  pose proof (local_presence_score_range bb) as Hl.
  pose proof (seo_score_range bb) as Hs.
  pose proof (social_score_range bb) as Hm.
  split; [exact Hl|]. split; [exact Hs|]. split; [exact Hm|].
  unfold d_score.
  destruct (half_range (_calculate_seo_score bb + _calculate_social_score bb))
    as [H0 H10]; [lia|].
  split; [exact H0|]. split; [exact H10|].
  rewrite inject_Z_plus. field.
Qed.

(** The score a full analysis record shows is in range too. *)
Lemma analysis_local_presence_range `{Library} (row : Row) (q : string)
    (relaxed : bool) (a : Analysis) :
  _analyze_prospect row q relaxed = Ok (Full a) -> 0 <= local_presence a <= 6.
Proof.
  unfold _analyze_prospect.
  destruct (buzzboard_of (buzz row)) as [bb|e]; cbn; [|discriminate].
  destruct (score_bundle bb q relaxed); intros Ha; [|discriminate].
  injection Ha as <-. apply local_presence_score_range.
Qed.

(** The scores of a report of [get_prospect_details] are in range, and its
    strengths section is not empty. *)
Lemma details_scores_in_range `{Library} (df : DataFrame) (name : string)
    (t : list Op) (d : Details) :
  get_prospect_details df name = (t, Ok (Some d)) ->
  0 <= det_seo_score d <= 10 /\
  0 <= det_social_score d <= 10 /\
  (0 <= det_d_score d)%Q /\ (det_d_score d <= 10)%Q /\
  Strengths (det_swot d) <> [].
Proof.
  unfold get_prospect_details.
  destruct (bool_decide ("Prospect Business Name" ∈ columns df));
    cbn [negb lift]; [|discriminate].
  destruct (List.filter _ (rows df)) as [|prospect_data rest];
    [cbn; intros Hd; discriminate|].
  destruct (buzzboard_of (buzz prospect_data)) as [bb|e];
    cbn [mbind eff_mbind eff_bind lift]; [|discriminate].
  destruct (_analyze_market_trends df prospect_data) as [t' [m|e]];
    cbn [mbind eff_mbind eff_bind mret eff_mret eff_ret]; [|discriminate].
  intros Hd. injection Hd as _ <-.
  cbn [det_seo_score det_social_score det_d_score det_swot].
  pose proof (seo_score_range bb) as Hs.
  pose proof (social_score_range bb) as Hm.
  split; [exact Hs|]. split; [exact Hm|].
  unfold d_score.
  destruct (half_range (_calculate_seo_score bb + _calculate_social_score bb))
    as [H0 H10]; [lia|].
  split; [exact H0|]. split; [exact H10|].
  unfold _generate_swot_analysis. cbn [Strengths].
  destruct (signal_strengths bb); cbn [is_empty]; discriminate.
Qed.

(** ** The SWOT report *)

(** C6, as stated, fails: a business with the three core signals has no
    weakness, and its opportunities list is empty. *)
Lemma opportunities_empty_when_strong :
  Weaknesses (_generate_swot_analysis bb_all_yes acme) = [] /\
  Opportunities (_generate_swot_analysis bb_all_yes acme) = [].
Proof. split; vm_compute; reflexivity. Qed.

Lemma signal_strengths_empty (bb : Buzzboard) :
  signal_strengths bb = [] <->
  is_yes bb "Google Places" = false /\ is_yes bb "SEM" = false /\
  is_yes bb "FB latest_posts" = false.
Proof.
  unfold signal_strengths.
  destruct (is_yes bb "Google Places"), (is_yes bb "SEM"),
    (is_yes bb "FB latest_posts"); cbn; intuition discriminate.
Qed.

(** C6, amended: the strengths list is never empty, 'Limited digital
    presence' standing in when no signal gives a strength, and neither is
    the threats list. The opportunities list is empty exactly when Google
    Places and SEM are both 'Yes'; its 'digital transformation' item is
    there exactly when no signal gives a strength. The weaknesses list is
    empty exactly when the three core signals are 'Yes'. *)
Theorem swot_sections (bb : Buzzboard) (prospect_data : Row) :
  let swot := _generate_swot_analysis bb prospect_data in
  Strengths swot <> [] /\
  (signal_strengths bb = [] -> Strengths swot = ["Limited digital presence"]) /\
  Threats swot <> [] /\
  (Opportunities swot = [] <->
   is_yes bb "Google Places" = true /\ is_yes bb "SEM" = true) /\
  (In "Complete digital transformation opportunity" (Opportunities swot) <->
   signal_strengths bb = []) /\
  (Weaknesses swot = [] <->
   is_yes bb "Google Places" = true /\ is_yes bb "SEM" = true /\
   is_yes bb "FB latest_posts" = true).
Proof.
  cbn zeta. unfold _generate_swot_analysis.
  cbn [Strengths Threats Opportunities Weaknesses].
  rewrite signal_strengths_empty.
  unfold signal_opportunities, signal_weaknesses, signal_strengths.
  destruct (is_yes bb "Google Places"), (is_yes bb "SEM"),
    (is_yes bb "FB latest_posts"); cbn;
    intuition (discriminate || congruence).
Qed.

(** ** Relevance scoring *)

(** The local-presence clause leaves the scoring alone unless the query
    asks for a low or weak local presence. *)
Lemma local_presence_clause_gated (q : string) (relaxed : bool) (lps : Z)
    (s : Scoring) :
  asks_low_local_presence q = false -> local_presence_clause q relaxed lps s = s.
Proof. intros H. unfold local_presence_clause. rewrite H. reflexivity. Qed.

(** When the query asks for it, a sub-score of at most 2 adds 3, and in
    strict mode a higher one sets the relevance to 0. *)
Lemma local_presence_clause_asked (q : string) (relaxed : bool) (lps : Z)
    (s : Scoring) :
  asks_low_local_presence q = true ->
  (lps <= 2 ->
   relevance (local_presence_clause q relaxed lps s) = relevance s + 3) /\
  (2 < lps -> relaxed = false ->
   relevance (local_presence_clause q relaxed lps s) = 0) /\
  (2 < lps -> relaxed = true -> local_presence_clause q relaxed lps s = s).
Proof.
  intros H. unfold local_presence_clause. rewrite H.
  repeat split; intros Hl; try intros ->;
    destruct (Z.leb_spec lps 2); try lia; reflexivity.
Qed.

(** Without either kind of phrase in the query, strict scoring gives the
    base relevance 1. *)
Lemma strict_relevance_plain_query (bb : Buzzboard) (q : string) :
  asks_low_local_presence q = false -> asks_high_sem q = false ->
  exists s, score_bundle bb q false = Some s /\ relevance s = 1.
Proof.
  intros Hl Hs. unfold score_bundle.
  rewrite local_presence_clause_gated by exact Hl.
  unfold sem_clause. rewrite Hs. eexists. split; reflexivity.
Qed.

(** Without the local-presence phrase, strict scoring gives relevance 0 to
    no row; a row only leaves through the early return of the SEM clause. *)
Lemma strict_never_zero_without_phrase (bb : Buzzboard) (q : string) (s : Scoring) :
  asks_low_local_presence q = false ->
  score_bundle bb q false = Some s -> 1 <= relevance s.
Proof.
  intros Hl. unfold score_bundle.
  rewrite local_presence_clause_gated by exact Hl.
  unfold sem_clause.
  destruct (asks_high_sem q); [destruct (3 <=? sem_score bb)|];
    cbn; intros Hs; try discriminate; injection Hs as <-; cbn; lia.
Qed.

(** A strict row whose local presence is above 2 ends at relevance 0 when
    the query asks for a low local presence and has no SEM phrase. *)
Lemma strict_zero_when_presence_high (bb : Buzzboard) (q : string) :
  asks_low_local_presence q = true -> asks_high_sem q = false ->
  2 < local_presence_score bb ->
  exists s, score_bundle bb q false = Some s /\ relevance s = 0.
Proof.
  intros Hl Hs Hlps. unfold score_bundle, local_presence_clause, sem_clause.
  rewrite Hl, Hs.
  destruct (Z.leb_spec (local_presence_score bb) 2); [lia|].
  eexists. split; reflexivity.
Qed.

(** C3, at the query of the tool's own description and a business with a
    Google Places listing and paid search: the local-presence clause sets
    the relevance to 0, the SEM clause then adds 3, and the row is returned
    with relevance 3 as a strict match. *)
Lemma low_presence_zero_overridden :
  asks_low_local_presence
    "find businesses with low local presence but high SEM spend" = true /\
  local_presence_score bb_places_and_sem = 3 /\
  relevance
    (local_presence_clause
       "find businesses with low local presence but high SEM spend" false
       (local_presence_score bb_places_and_sem) base_scoring) = 0 /\
  (exists a,
     @_analyze_prospect sample_library acme
       "find businesses with low local presence but high SEM spend" false
       = Ok (Full a) /\
     relevance_score a = 3 /\ match_type a = "Strict") /\
  (exists a,
     @find_prospects_hybrid sample_library (fun _ => Ok []) sample_df
       "find businesses with low local presence but high SEM spend"
       = Ok [Full a] /\
     prospect_business_name a = Some "Acme IT" /\ relevance_score a = 3).
Proof.
  split; [vm_compute; reflexivity|].
  split; [vm_compute; reflexivity|].
  split; [vm_compute; reflexivity|].
  split; eexists; (split; [vm_compute; reflexivity|]); split; reflexivity.
Qed.

(** C4: when the query holds one of the high-SEM phrases, a row with SEM
    sub-score 3 gets the full record with 3 added to its relevance (and, in
    relaxed mode, one more per gap); in strict mode a row without SEM
    activity gets the early marker instead: its name, the status text and
    relevance 0. *)
Theorem high_sem_rule `{Library} (row : Row) (bb : Buzzboard) (q : string) :
  asks_high_sem q = true ->
  buzzboard_of (buzz row) = Ok bb ->
  (forall relaxed, 3 <= sem_score bb ->
     let before := local_presence_clause q relaxed
                     (local_presence_score bb) base_scoring in
     exists a,
       _analyze_prospect row q relaxed = Ok (Full a) /\
       relevance_score a =
         relevance before + 3 +
         (if relaxed
          then Z.of_nat (List.length (gaps before ++ general_gaps bb)) else 0)) /\
  (sem_score bb < 3 ->
     sem_score bb = 0 /\
     _analyze_prospect row q false =
       Ok (FilteredOut (cells row !! "Prospect Business Name")
             "Filtered out - No Google Ads activity found" 0) /\
     (0 <? get_relevance_score
             (FilteredOut (cells row !! "Prospect Business Name")
                "Filtered out - No Google Ads activity found" 0)) = false).
Proof.
  intros Hq Hbb. split.
  - intros relaxed Hsem before.
    unfold _analyze_prospect. rewrite Hbb. cbn [mbind res_mbind res_bind].
    unfold score_bundle, sem_clause. fold before. rewrite Hq.
    destruct (Z.leb_spec 3 (sem_score bb)); [|lia].
    eexists. split; [reflexivity|].
    cbn [relevance_score]. unfold relaxed_bonus. cbn [gaps relevance].
    destruct relaxed; cbn [andb].
    + destruct (gaps before ++ general_gaps bb)%list; cbn [is_empty negb relevance];
        [cbn; lia | reflexivity].
    + cbn [relevance]. lia.
  - intros Hsem.
    split; [destruct (sem_score_values bb); [assumption | lia]|].
    split; [|reflexivity].
    unfold _analyze_prospect. rewrite Hbb. cbn [mbind res_mbind res_bind].
    unfold score_bundle, sem_clause. rewrite Hq.
    destruct (Z.leb_spec 3 (sem_score bb)); [lia|]. reflexivity.
Qed.

Lemma high_sem_rule_witness :
  @_analyze_prospect sample_library bolt "Find companies with high SEM spend" false
  = Ok (FilteredOut (Some "Bolt Plumbing")
          "Filtered out - No Google Ads activity found" 0).
Proof.
  apply (@high_sem_rule sample_library bolt bb_nothing
           "Find companies with high SEM spend").
  - vm_compute. reflexivity.
  - reflexivity.
  - vm_compute. reflexivity.
Defined.

Example high_sem_keeps_acme :
  exists a,
    @_analyze_prospect sample_library acme "Find companies with high SEM spend" false
      = Ok (Full a) /\ relevance_score a = 4.
Proof. eexists. split; [vm_compute; reflexivity | reflexivity]. Qed.

(** ** Market trends *)

(** The only exception reading a BuzzBoard cell can raise. *)
Lemma buzzboard_of_raises `{Library} (cell : BuzzCell) (e : Exn) :
  buzzboard_of cell = Raise e -> e = AttributeError.
Proof.
  unfold buzzboard_of. destruct cell as [d|s]; [discriminate|].
  destruct (String.eqb s "Not Found"); [discriminate|].
  destruct (literal_eval s) as [[d|]|e']; try discriminate.
  intros He. injection He as <-. reflexivity.
Qed.

Lemma count_adoption_raises `{Library} (peers : list Row) (acc : Z * Z * Z)
    (e : Exn) :
  count_adoption peers acc = Raise e -> e = AttributeError.
Proof.
  revert acc. induction peers as [|row rest IH]; intros acc; cbn [count_adoption].
  - discriminate.
  - destruct (buzzboard_of (buzz row)) as [bb|e'] eqn:Hbb; cbn.
    + destruct acc as [[gp sem] social]. apply IH.
    + intros He. injection He as <-. exact (buzzboard_of_raises _ _ Hbb).
Qed.

(** A percentage of a group that is not empty: one division by its size. *)
Lemma percent_of_nonzero (adoption total_similar : Z) :
  total_similar <> 0 ->
  percent_of adoption total_similar
    = ([Divide adoption total_similar],
       Ok (inject_Z adoption / inject_Z total_similar * 100)%Q).
Proof.
  intros Hne. unfold percent_of, truediv.
  destruct (Z.eqb_spec total_similar 0); [contradiction|]. reflexivity.
Qed.

(** What [_analyze_market_trends] does, by the size of the peer group. *)
Lemma market_trends_cases `{Library} (df : DataFrame) (prospect_data : Row)
    (peers : list Row) :
  similar_businesses df (default "" (cells prospect_data !! "Primary Category"))
    (default "" (cells prospect_data !! "State")) = Ok peers ->
  let total := Z.of_nat (List.length peers) in
  let run := _analyze_market_trends df prospect_data in
  (total <= 1 /\ run = ([], Ok limited_market)) \/
  (2 <= total /\ run = ([], Raise AttributeError)) \/
  (2 <= total /\
   exists gp sem social m,
     count_adoption peers (0, 0, 0) = Ok (gp, sem, social) /\
     run = ([Divide gp total; Divide sem total; Divide social total], Ok m) /\
     trends m <> [] /\ competitors m <> []).
Proof.
  intros Hsim total run. unfold run, _analyze_market_trends.
  rewrite Hsim. cbn [lift mbind eff_mbind eff_bind]. fold total.
  destruct (Z.leb_spec total 1) as [Hle|Hgt].
  - left. split; [exact Hle | reflexivity].
  - right.
    destruct (count_adoption peers (0, 0, 0)) as [[[gp sem] social]|e] eqn:Hcount.
    + right. split; [lia|].
      cbn [lift mbind eff_mbind eff_bind].
      rewrite !percent_of_nonzero by lia.
      cbn [mbind eff_mbind eff_bind mret eff_mret eff_ret app].
      eexists gp, sem, social, _.
      split; [reflexivity|]. split; [reflexivity|].
      cbn [trends competitors]. split.
      * match goal with |- (if is_empty ?l then _ else _) <> _ =>
          destruct l eqn:Hl; cbn [is_empty]; discriminate
        end.
      * discriminate.
    + left. split; [lia|].
      rewrite (count_adoption_raises _ _ _ Hcount). reflexivity.
Qed.

(** C7: with a peer group of at most one row the analysis returns the two
    fixed statements and divides nothing; every division it ever performs
    is by the size of the peer group, which is then at least 2, so it never
    raises [ZeroDivisionError]. *)
Theorem market_trends_division_guard `{Library} (df : DataFrame)
    (prospect_data : Row) (peers : list Row) :
  similar_businesses df (default "" (cells prospect_data !! "Primary Category"))
    (default "" (cells prospect_data !! "State")) = Ok peers ->
  let run := _analyze_market_trends df prospect_data in
  ((List.length peers <= 1)%nat ->
   run = ([], Ok {| trends := [LimitedMarketData]; competitors := [NeedsMoreData] |})) /\
  (forall num den, In (Divide num den) (fst run) ->
     den = Z.of_nat (List.length peers) /\ 2 <= den) /\
  snd run <> Raise ZeroDivisionError.
Proof.
  intros Hsim run.
  destruct (market_trends_cases df prospect_data peers Hsim)
    as [[Hle Hrun] | [[Hge Hrun] | (Hge & gp & sem & social & m & _ & Hrun & _)]];
    fold run in Hrun; rewrite Hrun; cbn [fst snd].
  - split; [intros _; reflexivity|]. split; [intros num den []|discriminate].
  - split; [intros Hle; lia|]. split; [intros num den []|discriminate].
  - split; [intros Hle; lia|]. split; [|discriminate].
    intros num den Hin. cbn [In] in Hin.
    destruct Hin as [Hd | [Hd | [Hd | []]]]; injection Hd as _ <-; split;
      (reflexivity || exact Hge).
Qed.

Lemma market_trends_division_guard_witness :
  @_analyze_market_trends sample_library sample_df acme
  = ([], Ok {| trends := [LimitedMarketData]; competitors := [NeedsMoreData] |}).
Proof.
  apply (@market_trends_division_guard sample_library sample_df acme [acme]).
  - vm_compute. reflexivity.
  - vm_compute. lia.
Defined.

Example market_trends_two_peers :
  exists m,
    @_analyze_market_trends sample_library peer_df acme
      = ([Divide 1 2; Divide 1 2; Divide 0 2], Ok m) /\
    competitors m = [SimilarBusinesses 1 "TX"].
Proof. eexists. split; [vm_compute; reflexivity | reflexivity]. Qed.

(* ================================================================= *)
(** * Further properties of the router *)

Lemma lower_char_idempotent (c : ascii) :
  PyStr.lower_char (PyStr.lower_char c) = PyStr.lower_char c.
Proof. destruct c as [[] [] [] [] [] [] [] []]; reflexivity. Qed.

Lemma lower_char_pipe (c : ascii) :
  Ascii.eqb (PyStr.lower_char c) "|" = Ascii.eqb c "|".
Proof. destruct c as [[] [] [] [] [] [] [] []]; reflexivity. Qed.

Lemma lower_char_space (c : ascii) :
  PyStr.is_space (PyStr.lower_char c) = PyStr.is_space c.
Proof. destruct c as [[] [] [] [] [] [] [] []]; reflexivity. Qed.

Lemma lower_idempotent (s : string) : PyStr.lower (PyStr.lower s) = PyStr.lower s.
Proof.
  induction s as [|c s IH]; [reflexivity|].
  cbn [PyStr.lower]. rewrite lower_char_idempotent, IH. reflexivity.
Qed.

Lemma count_pipe_lower (s : string) :
  PyStr.count "|" (PyStr.lower s) = PyStr.count "|" s.
Proof.
  induction s as [|c s IH]; [reflexivity|].
  cbn [PyStr.lower PyStr.count]. rewrite lower_char_pipe, IH. reflexivity.
Qed.

Lemma split_pipe_lower (s : string) :
  PyStr.split "|" (PyStr.lower s) = map PyStr.lower (PyStr.split "|" s).
Proof.
  induction s as [|c s IH]; [reflexivity|].
  cbn [PyStr.lower PyStr.split]. rewrite lower_char_pipe, IH.
  destruct (Ascii.eqb c "|"); [reflexivity|].
  destruct (PyStr.split "|" s); reflexivity.
Qed.

Lemma lstrip_lower (s : string) :
  PyStr.lstrip (PyStr.lower s) = PyStr.lower (PyStr.lstrip s).
Proof.
  induction s as [|c s IH]; [reflexivity|].
  cbn [PyStr.lower PyStr.lstrip]. rewrite lower_char_space.
  destruct (PyStr.is_space c); [exact IH | reflexivity].
Qed.

Lemma rstrip_lower (s : string) :
  PyStr.rstrip (PyStr.lower s) = PyStr.lower (PyStr.rstrip s).
Proof.
  induction s as [|c s IH]; [reflexivity|].
  cbn [PyStr.lower PyStr.rstrip]. rewrite IH, lower_char_space.
  destruct (PyStr.rstrip s); cbn [PyStr.lower];
    [destruct (PyStr.is_space c); reflexivity | reflexivity].
Qed.

Lemma strip_lower (s : string) :
  PyStr.strip (PyStr.lower s) = PyStr.lower (PyStr.strip s).
Proof. unfold PyStr.strip. rewrite lstrip_lower, rstrip_lower. reflexivity. Qed.

(** The token and the failure of the parsing are those of the lower-cased
    response. *)
Lemma parse_response_lower (state : GraphState) (result : string) :
  route_outcome
    (match parse_response state result with
     | Ok (st, tok) => Ok (st, select_route tok)
     | Raise e => Raise e
     end)
  = route_outcome
      (match parse_response state (PyStr.lower result) with
       | Ok (st, tok) => Ok (st, select_route tok)
       | Raise e => Raise e
       end).
Proof.
  unfold parse_response.
  rewrite !contains_char_count, count_pipe_lower, split_pipe_lower.
  destruct (negb (PyStr.count "|" result =? 0)%nat).
  - destruct (PyStr.split "|" result) as [|u [|r [|x t]]]; cbn [map route_outcome];
      try reflexivity.
    rewrite strip_lower, lower_idempotent. reflexivity.
  - cbn [route_outcome]. rewrite lower_idempotent. reflexivity.
Qed.

(** X1: routing does not depend on letter case. Two responses that are
    equal once lower-cased give the same route, or fail alike. *)
Theorem routing_ignores_case (state : GraphState) (chain1 chain2 : RouterChain)
    (last_message result1 result2 : string) :
  last (messages state) = Some last_message ->
  chain1 last_message (history_window (conversation_history state)) = Ok result1 ->
  chain2 last_message (history_window (conversation_history state)) = Ok result2 ->
  PyStr.lower result1 = PyStr.lower result2 ->
  route_outcome (route_requests state chain1)
    = route_outcome (route_requests state chain2).
Proof.
  intros Hm H1 H2 Hlow.
  rewrite (route_requests_unfold _ _ _ _ Hm H1), (route_requests_unfold _ _ _ _ Hm H2).
  rewrite (parse_response_lower state result1), (parse_response_lower state result2).
  rewrite Hlow. reflexivity.
Qed.

Lemma routing_ignores_case_witness :
  route_outcome (route_requests sample_state (fun _ _ => Ok "SalesRep|INSIGHTS"))
  = route_outcome (route_requests sample_state (fun _ _ => Ok "salesrep|Insights")).
Proof.
  apply (routing_ignores_case sample_state _ _ "Current query: find prospects"
           "SalesRep|INSIGHTS" "salesrep|Insights"); reflexivity.
Defined.

(** X2: the router changes nothing of the state but the user type. When it
    returns, the messages and the history are as before, every other key of
    the user context keeps its value, and [user_type] is written exactly
    when the response has a ['|']. *)
Theorem router_state_frame (state state' : GraphState) (router_chain : RouterChain)
    (last_message result : string) (route : Route) :
  last (messages state) = Some last_message ->
  router_chain last_message (history_window (conversation_history state)) = Ok result ->
  route_requests state router_chain = Ok (state', route) ->
  messages state' = messages state /\
  conversation_history state' = conversation_history state /\
  (forall k, k <> "user_type" ->
     default ∅ (user_context state') !! k = default ∅ (user_context state) !! k) /\
  (PyStr.count "|" result = 0%nat -> state' = state) /\
  (PyStr.count "|" result = 1%nat ->
   exists user_type rest,
     result = user_type ++ "|" ++ rest /\
     default ∅ (user_context state') !! "user_type" = Some (PyStr.strip user_type)).
Proof.
  intros Hm Hc Hroute.
  rewrite (route_requests_unfold _ _ _ _ Hm Hc) in Hroute.
  destruct (PyStr.count "|" result) as [|[|n]] eqn:Hcount.
  - rewrite (parse_response_no_pipe state result Hcount) in Hroute.
    injection Hroute as <- _.
    repeat split; try reflexivity. discriminate.
  - destruct (parse_response_one_pipe state result Hcount)
      as (user_type & rest & Hres & Hparse).
    rewrite Hparse in Hroute. injection Hroute as <- _.
    cbn [messages conversation_history user_context default].
    split; [reflexivity|]. split; [reflexivity|].
    split; [intros k Hk; apply lookup_insert_ne; congruence|].
    split; [discriminate|].
    intros _. exists user_type, rest. split; [exact Hres|].
    apply lookup_insert_eq.
  - rewrite (parse_response_many_pipes state result) in Hroute by lia.
    discriminate Hroute.
Qed.

Lemma router_state_frame_witness :
  messages
    {| messages := messages sample_state;
       conversation_history := None;
       user_context := Some {[ "user_type" := "DEMANDGEN" ]} |}
  = messages sample_state.
Proof.
  apply (router_state_frame sample_state
           {| messages := messages sample_state;
              conversation_history := None;
              user_context := Some {[ "user_type" := "DEMANDGEN" ]} |}
           (fun _ _ => Ok " DEMANDGEN |prospecting")
           "Current query: find prospects" " DEMANDGEN |prospecting" prospecting).
  - reflexivity.
  - reflexivity.
  - vm_compute. reflexivity.
Defined.

(* ================================================================= *)
(** * Further properties of the turn and of the session *)

Lemma last_n_map {A B : Type} (f : A -> B) (n : nat) (l : list A) :
  map f (last_n n l) = last_n n (map f l).
Proof. unfold last_n. rewrite length_map. symmetry. apply skipn_map. Qed.

(** Cutting to the last [n] before appending changes nothing of the last
    [n] after it. *)
Lemma last_n_app_last_n {A : Type} (n : nat) (l k : list A) :
  last_n n (last_n n l ++ k) = last_n n (l ++ k).
Proof.
  unfold last_n. rewrite !length_app, length_drop.
  destruct (le_lt_dec (List.length l) n) as [Hle|Hgt].
  - replace (List.length l - n)%nat with 0%nat by lia.
    cbn [drop]. rewrite Nat.sub_0_r. reflexivity.
  - destruct (le_lt_dec n (List.length k)) as [Hk|Hk].
    + rewrite !drop_app_ge by (rewrite ?length_drop; lia).
      rewrite length_drop. f_equal. lia.
    + rewrite !drop_app_le by (rewrite ?length_drop; lia).
      rewrite drop_drop. do 2 f_equal. lia.
Qed.

Lemma run_conversation_queries (repr_queries : list string -> string)
    (mem : Memory) (now : string) (app : option App) (q : string) :
  map query (history (fst (run_conversation repr_queries mem now app q)))
    = last_n 10 (map query (history mem) ++ [q]).
Proof.
  destruct (run_conversation_history repr_queries mem now app q) as [r Hr].
  rewrite Hr, map_app, last_n_snoc, last_n_map. reflexivity.
Qed.

Lemma session_queries (repr_queries : list string -> string)
    (turns : list (string * option App * string)) (mem : Memory) :
  (List.length (history mem) <= 10)%nat ->
  map query (history (run_session repr_queries mem turns))
    = last_n 10 (map query (history mem) ++ map snd turns).
Proof.
  revert mem. induction turns as [|[[now app] q] turns IH]; intros mem Hmem.
  - cbn [run_session map]. rewrite app_nil_r. symmetry.
    apply last_n_all. rewrite length_map. exact Hmem.
  - cbn [run_session map snd].
    rewrite IH by apply history_fifo_bounded_aux.
    rewrite run_conversation_queries, last_n_app_last_n, <- app_assoc.
    reflexivity.
Qed.

(** X3: over a session that starts from the cleared memory, the history
    holds the queries of the last ten turns, in the order they were asked,
    whatever the apps answered or raised. *)
Theorem session_keeps_last_ten_queries (repr_queries : list string -> string)
    (turns : list (string * option App * string)) :
  let mem := run_session repr_queries clear_conversation_memory turns in
  map query (history mem) = last_n 10 (map snd turns) /\
  List.length (history mem) = Nat.min 10 (List.length turns).
Proof.
  cbn zeta.
  assert (H : map query (history (run_session repr_queries clear_conversation_memory turns))
              = last_n 10 (map snd turns)).
  { rewrite session_queries by (cbn; lia). reflexivity. }
  split; [exact H|].
  rewrite <- (length_map query), H, last_n_length, length_map. reflexivity.
Qed.

(** The outcome of one turn on the compiled graph, by the route. *)
Lemma build_app_stream (pa ia ca : AgentExecutor) (router_chain : RouterChain)
    (state state' : GraphState) (route : Route) :
  route_requests state router_chain = Ok (state', route) ->
  build_app pa ia ca router_chain state =
    let ctx := default ∅ (user_context state') in
    match route with
    | route_end => {| events := []; failure := None; user_context_left := ctx |}
    | _ =>
        match (match route with
               | prospecting => pa | insights => ia | _ => ca end) state' with
        | Ok text =>
            {| events := [(match route with
                           | prospecting => "prospecting"
                           | insights => "insights"
                           | _ => "communication" end,
                           {| out_messages := [text] |})];
               failure := None; user_context_left := ctx |}
        | Raise e => {| events := []; failure := Some e; user_context_left := ctx |}
        end
    end.
Proof.
  intros Hroute. unfold build_app, create_workflow. rewrite Hroute.
  destruct route; cbn zeta; try reflexivity;
    unfold run_node, prospecting_node, insights_node, communication_node, agent_node;
    match goal with |- context [?a state'] => destruct (a state') end; reflexivity.
Qed.

(** X4: a turn runs exactly the agent of the route, once, on the state the
    router left. Its answer is returned and stored as the response of the
    current query; when it raises, the turn raises and the query stays
    without response; on the end route no agent runs and nothing is
    returned. *)
Theorem turn_runs_one_agent (repr_queries : list string -> string)
    (mem : Memory) (now q : string) (pa ia ca : AgentExecutor)
    (router_chain : RouterChain) (state' : GraphState) (route : Route) :
  let h := remember (history mem) q now in
  let state := {| messages := [context_msg repr_queries h q];
                  conversation_history := Some h;
                  user_context := Some (mem_user_context mem) |} in
  route_requests state router_chain = Ok (state', route) ->
  run_conversation repr_queries mem now (Some (build_app pa ia ca router_chain)) q =
    let ctx := default ∅ (user_context state') in
    match route with
    | route_end => ({| history := h; mem_user_context := ctx |}, Ok None)
    | _ =>
        match (match route with
               | prospecting => pa | insights => ia | _ => ca end) state' with
        | Ok text =>
            ({| history := set_last_response text h; mem_user_context := ctx |},
             Ok (Some {| out_messages := [text] |}))
        | Raise e => ({| history := h; mem_user_context := ctx |}, Raise e)
        end
    end.
Proof.
  intros h state Hroute. unfold run_conversation. fold h. fold state.
  rewrite (build_app_stream pa ia ca router_chain state state' route Hroute).
  destruct route; cbn zeta; try reflexivity;
    match goal with |- context [?a state'] => destruct (a state') end; reflexivity.
Qed.

Lemma turn_runs_one_agent_witness :
  snd (run_conversation sample_repr clear_conversation_memory "2024-01-01T10:00:00"
         (Some (build_app (sample_agent "three prospects") (sample_agent "swot")
                  (sample_agent "email draft")
                  (fun _ _ => Ok "SALESREP|communication")))
         "draft an email for Acme IT")
  = Ok (Some {| out_messages := ["email draft"] |}).
Proof.
  rewrite (turn_runs_one_agent sample_repr clear_conversation_memory
             "2024-01-01T10:00:00" "draft an email for Acme IT"
             (sample_agent "three prospects") (sample_agent "swot")
             (sample_agent "email draft") (fun _ _ => Ok "SALESREP|communication")
             {| messages :=
                  [context_msg sample_repr
                     (remember [] "draft an email for Acme IT" "2024-01-01T10:00:00")
                     "draft an email for Acme IT"];
                conversation_history :=
                  Some (remember [] "draft an email for Acme IT" "2024-01-01T10:00:00");
                user_context := Some (<["user_type" := "SALESREP"]> ∅) |}
             communication).
  - reflexivity.
  - vm_compute. reflexivity.
Defined.

Lemma test_query_memory (repr_queries : list string -> string) (mem : Memory)
    (now : string) (a : App) (q : string) :
  fst (test_query repr_queries mem now (Some a) q)
    = fst (run_conversation repr_queries mem now (Some a) q).
Proof.
  unfold test_query, run_query.
  destruct (run_conversation repr_queries mem now (Some a) q) as [mem' r].
  reflexivity.
Qed.

(** A turn that raises is reported as an error line. *)
Lemma test_query_error (repr_queries : list string -> string) (mem : Memory)
    (now : string) (a : App) (q : string) (e : Exn) :
  snd (run_conversation repr_queries mem now (Some a) q) = Raise e ->
  snd (test_query repr_queries mem now (Some a) q) = ErrorLine e.
Proof.
  unfold test_query, run_query.
  destruct (run_conversation repr_queries mem now (Some a) q) as [mem' r].
  cbn. intros ->. reflexivity.
Qed.

Lemma run_test_loop_session (repr_queries : list string -> string)
    (a : App) (timed : list (string * string)) (mem : Memory) :
  fst (run_test_loop repr_queries mem (Some a) timed)
    = run_session repr_queries mem (map (fun t => (fst t, Some a, snd t)) timed) /\
  List.length (snd (run_test_loop repr_queries mem (Some a) timed))
    = List.length timed.
Proof.
  revert mem. induction timed as [|[now q] timed IH]; intros mem.
  - split; reflexivity.
  - cbn [run_test_loop run_session map fst snd].
    pose proof (test_query_memory repr_queries mem now a q) as Hfst.
    destruct (test_query repr_queries mem now (Some a) q) as [mem1 line].
    cbn [fst] in Hfst. subst mem1.
    destruct (IH (fst (run_conversation repr_queries mem now (Some a) q)))
      as [IHm IHl].
    destruct (run_test_loop repr_queries
                (fst (run_conversation repr_queries mem now (Some a) q))
                (Some a) timed) as [mem2 lines].
    cbn [fst snd List.length] in *. split; [exact IHm | rewrite IHl; reflexivity].
Qed.

Lemma run_session_cons (repr_queries : list string -> string) (mem : Memory)
    (now : string) (app : option App) (q : string)
    (rest : list (string * option App * string)) :
  run_session repr_queries mem ((now, app, q) :: rest)
    = run_session repr_queries
        (fst (run_conversation repr_queries mem now app q)) rest.
Proof. reflexivity. Qed.

(** X5: test mode always prints three lines and never raises. When the app
    was built, it goes through its three queries whatever happens in a
    turn: the history ends with the three test queries in order, cut to the
    last ten, and a failure of the first turn shows as an error line, not
    as an exception. When the app was not built, the three lines are 'No
    result returned' and the memory is left as it was: no query is
    recorded. *)
Theorem test_mode_records_all_queries (repr_queries : list string -> string)
    (mem : Memory) (app : option App) (now1 now2 now3 : string) :
  let out := run_test_mode repr_queries mem app now1 now2 now3 in
  List.length (snd out) = 3%nat /\
  match app with
  | Some a =>
      map query (history (fst out))
        = last_n 10 (map query (history mem) ++ test_queries) /\
      (List.length (history (fst out)) <= 10)%nat /\
      (forall e,
         snd (run_conversation repr_queries mem now1 (Some a)
                "Find computer contractors in Texas") = Raise e ->
         head (snd out) = Some (ErrorLine e))
  | None =>
      out = (mem, [NoResultReturned; NoResultReturned; NoResultReturned])
  end.
Proof.
  intros out. destruct app as [a|]; [|split; reflexivity].
  unfold out, run_test_mode.
  destruct (run_test_loop_session repr_queries a
              (zip [now1; now2; now3] test_queries) mem) as [Hmem Hlen].
  split; [rewrite Hlen; reflexivity|].
  rewrite Hmem. cbn [zip zip_with test_queries map fst snd].
  rewrite run_session_cons.
  set (mem1 := fst (run_conversation repr_queries mem now1 (Some a)
                      "Find computer contractors in Texas")).
  assert (Hb : (List.length (history mem1) <= 10)%nat)
    by apply history_fifo_bounded_aux.
  split.
  - rewrite (session_queries repr_queries _ mem1 Hb). cbn [map snd].
    unfold mem1. rewrite run_conversation_queries, last_n_app_last_n, <- app_assoc.
    reflexivity.
  - split.
    + apply session_history_bounded. exact Hb.
    + intros e He. cbn [zip zip_with test_queries].
      change (run_test_loop repr_queries mem (Some a)
                ((now1, "Find computer contractors in Texas") :: ?rest))
        with (let '(m1, line) := test_query repr_queries mem now1 (Some a)
                                   "Find computer contractors in Texas" in
              let '(m2, lines) := run_test_loop repr_queries m1 (Some a) rest in
              (m2, line :: lines)).
      pose proof (test_query_error repr_queries mem now1 a _ e He) as Hline.
      destruct (test_query repr_queries mem now1 (Some a)
                  "Find computer contractors in Texas") as [m1 line].
      cbn [snd] in Hline. subst line.
      match goal with |- context [run_test_loop ?r ?m ?ap ?l] =>
        destruct (run_test_loop r m ap l) as [m2 lines]
      end.
      reflexivity.
Qed.

(** Test mode on a system whose app was never built. *)
Example test_mode_without_app :
  run_test_mode sample_repr clear_conversation_memory None
    "2024-01-01T10:00:00" "2024-01-01T10:00:05" "2024-01-01T10:00:09"
  = (clear_conversation_memory,
     [NoResultReturned; NoResultReturned; NoResultReturned]).
Proof. reflexivity. Qed.

(** Test mode over a classifier that always fails: three error lines, and
    the three queries in the history. *)
Example test_mode_with_failing_classifier :
  snd (run_test_mode sample_repr clear_conversation_memory
         (Some (sample_app failing_chain))
         "2024-01-01T10:00:00" "2024-01-01T10:00:05" "2024-01-01T10:00:09")
  = [ErrorLine (PortError "rate limit exceeded");
     ErrorLine (PortError "rate limit exceeded");
     ErrorLine (PortError "rate limit exceeded")] /\
  map query
    (history
       (fst (run_test_mode sample_repr clear_conversation_memory
               (Some (sample_app failing_chain))
               "2024-01-01T10:00:00" "2024-01-01T10:00:05" "2024-01-01T10:00:09")))
  = test_queries.
Proof. split; vm_compute; reflexivity. Qed.

(* ================================================================= *)
(** * Further properties of the filter engine *)

Lemma filter_sublist {A : Type} (f : A -> bool) (l : list A) :
  List.filter f l `sublist_of` l.
Proof.
  induction l as [|x l IH]; cbn [List.filter]; [constructor|].
  destruct (f x); [apply sublist_skip | apply sublist_cons]; exact IH.
Qed.

Lemma filter_complement {A : Type} (f : A -> bool) (l : list A) :
  (List.filter f l ++ List.filter (fun x => negb (f x)) l)%list ≡ₚ l.
Proof.
  induction l as [|x l IH]; cbn [List.filter]; [reflexivity|].
  destruct (f x); cbn [negb app].
  - constructor. exact IH.
  - rewrite <- Permutation_middle. constructor. exact IH.
Qed.

Lemma apply_filter_sublist `{Library} (cols : list string) (rs rs' : list Row)
    (f : FilterCondition) :
  apply_filter cols rs f = Ok rs' -> rs' `sublist_of` rs.
Proof.
  unfold apply_filter.
  destruct (bool_decide (field f ∈ cols)); cbn [negb];
    [|intros Hr; injection Hr as <-; reflexivity].
  destruct (operator f).
  - destruct (str_contains (PyStr.lower (value f))) as [m|e]; cbn;
      intros Hr; [injection Hr as <-; apply filter_sublist | discriminate].
  - destruct (str_contains (PyStr.lower (value f))) as [m|e]; cbn;
      intros Hr; [injection Hr as <-; apply filter_sublist | discriminate].
  - destruct (is_empty _ && String.eqb (field f) "Primary Category").
    + destruct (str_contains (PyStr.lower (value f))) as [m|e]; cbn;
        [|discriminate].
      destruct (negb (is_empty _)); intros Hr; injection Hr as <-;
        apply filter_sublist.
    + intros Hr; injection Hr as <-. apply filter_sublist.
  - intros Hr; injection Hr as <-. apply filter_sublist.
Qed.

(** X6: structured filtering only removes rows. What the filters return is
    a sub-list of the rows they got: no row is added, repeated or moved. *)
Theorem filters_only_remove `{Library} (cols : list string) (rs rs' : list Row)
    (filters : list FilterCondition) :
  apply_filters cols rs filters = Ok rs' ->
  rs' `sublist_of` rs /\ (List.length rs' <= List.length rs)%nat.
Proof.
  intros Hrun.
  assert (Hsub : rs' `sublist_of` rs).
  { revert rs Hrun. induction filters as [|f filters IH]; intros rs Hrun.
    - cbn in Hrun. injection Hrun as <-. reflexivity.
    - cbn [apply_filters] in Hrun.
      destruct (apply_filter cols rs f) as [rs1|e] eqn:Hf; cbn in Hrun;
        [|discriminate].
      transitivity rs1; [apply IH; exact Hrun | exact (apply_filter_sublist _ _ _ _ Hf)]. }
  split; [exact Hsub | apply sublist_length; exact Hsub].
Qed.

Lemma filters_only_remove_witness :
  [acme] `sublist_of` [acme; bolt].
Proof.
  apply (@filters_only_remove sample_library sample_columns [acme; bolt] [acme]
           [{| field := "Primary Category"; operator := contains; value := "Computer" |};
            {| field := "State"; operator := equals; value := "TX" |};
            {| field := "Country"; operator := equals; value := "US" |}]).
  vm_compute. reflexivity.
Defined.

(** X7: on a column of the DataFrame, [contains] and [not_contains] with
    the same value split the rows in two, and so do [equals] and
    [not_equals] on any column but the category; every row is kept by
    exactly one filter of the pair. *)
Theorem opposite_filters_partition `{Library} (cols : list string) (rs : list Row)
    (fld val : string) :
  fld ∈ cols ->
  (forall kept dropped,
     apply_filter cols rs {| field := fld; operator := contains; value := val |}
       = Ok kept ->
     apply_filter cols rs {| field := fld; operator := not_contains; value := val |}
       = Ok dropped ->
     (kept ++ dropped)%list ≡ₚ rs) /\
  (fld <> "Primary Category" ->
   exists kept dropped,
     apply_filter cols rs {| field := fld; operator := equals; value := val |}
       = Ok kept /\
     apply_filter cols rs {| field := fld; operator := not_equals; value := val |}
       = Ok dropped /\
     (kept ++ dropped)%list ≡ₚ rs).
Proof.
  intros Hin. split.
  - intros kept dropped. unfold apply_filter. cbn [field operator value].
    rewrite bool_decide_eq_true_2 by exact Hin. cbn [negb].
    destruct (str_contains (PyStr.lower val)) as [m|e]; cbn; [|discriminate].
    intros Hk Hd. injection Hk as <-. injection Hd as <-.
    apply (filter_complement (fun r => m (column_text r fld))).
  - intros Hne. eexists _, _.
    split; [apply equals_other_field; assumption|].
    split.
    + unfold apply_filter. cbn [field operator value].
      rewrite bool_decide_eq_true_2 by exact Hin. reflexivity.
    + apply (filter_complement
               (fun r => String.eqb (column_text r fld) (PyStr.lower val))).
Qed.

Lemma opposite_filters_partition_witness :
  exists kept dropped,
    @apply_filter sample_library sample_columns [acme; bolt; cobalt]
      {| field := "City"; operator := equals; value := "Dallas" |} = Ok kept /\
    @apply_filter sample_library sample_columns [acme; bolt; cobalt]
      {| field := "City"; operator := not_equals; value := "Dallas" |} = Ok dropped /\
    (kept ++ dropped)%list ≡ₚ [acme; bolt; cobalt].
Proof.
  apply (@opposite_filters_partition sample_library sample_columns
           [acme; bolt; cobalt] "City" "Dallas").
  - apply (bool_decide_eq_true_1 ("City" ∈ sample_columns)). vm_compute. reflexivity.
  - discriminate.
Defined.

(** ** Scoring, ranking and what the engine returns *)

Lemma mapM_res_inv {A B : Type} (f : A -> Res B) (l : list A) (ys : list B) :
  mapM f l = Ok ys -> Forall2 (fun x y => f x = Ok y) l ys.
Proof.
  revert ys. induction l as [|x l IH]; intros ys; cbn.
  - intros Hr. injection Hr as <-. constructor.
  - destruct (f x) as [y|e] eqn:Hfx; cbn; [|discriminate].
    destruct (mapM f l) as [k|e]; cbn; [|discriminate].
    intros Hr. injection Hr as <-. constructor; [exact Hfx | apply IH; reflexivity].
Qed.

Lemma mapM_res_forall {A B : Type} (f : A -> Res B) (P : B -> Prop)
    (l : list A) (ys : list B) :
  (forall x y, f x = Ok y -> P y) ->
  mapM f l = Ok ys -> Forall P ys /\ List.length ys = List.length l.
Proof.
  intros HP Hm. apply mapM_res_inv in Hm.
  induction Hm as [|x y l ys Hxy _ [IHP IHl]]; [split; [constructor | reflexivity]|].
  split; [constructor; [exact (HP x y Hxy) | exact IHP] | cbn; rewrite IHl; reflexivity].
Qed.

(** In relaxed mode the scoring keeps every row, and each gap is a point on
    top of the base relevance. *)
Lemma relaxed_score (bb : Buzzboard) (q : string) :
  exists s, score_bundle bb q true = Some s /\
            1 + Z.of_nat (List.length (general_gaps bb)) <= relevance s.
Proof.
  unfold score_bundle, local_presence_clause, sem_clause, relaxed_bonus, base_scoring.
  destruct (asks_low_local_presence q), (local_presence_score bb <=? 2),
    (asks_high_sem q), (3 <=? sem_score bb);
    cbn [negb relevance gaps opps andb app];
    (eexists; split; [reflexivity|]);
    cbn [gaps relevance app is_empty negb List.length];
    try (destruct (general_gaps bb) as [|g gs];
         cbn [is_empty negb relevance gaps List.length]);
    lia.
Qed.

(** X8: relaxed analysis never excludes a row. It returns the full record,
    marked Relaxed, with relevance at least 1 plus the number of gaps read
    from the signals. *)
Theorem relaxed_never_excludes `{Library} (row : Row) (bb : Buzzboard) (q : string) :
  buzzboard_of (buzz row) = Ok bb ->
  exists a,
    _analyze_prospect row q true = Ok (Full a) /\
    match_type a = "Relaxed" /\
    1 + Z.of_nat (List.length (general_gaps bb)) <= relevance_score a.
Proof.
  intros Hbb. unfold _analyze_prospect. rewrite Hbb. cbn [mbind res_mbind res_bind].
  destruct (relaxed_score bb q) as (s & Hs & Hrel). rewrite Hs.
  eexists. split; [reflexivity|]. split; [reflexivity | exact Hrel].
Qed.

Lemma relaxed_never_excludes_witness :
  exists a,
    @_analyze_prospect sample_library bolt "Find companies with high SEM spend" true
      = Ok (Full a) /\
    match_type a = "Relaxed" /\
    1 + Z.of_nat (List.length (general_gaps bb_nothing)) <= relevance_score a.
Proof.
  apply (@relaxed_never_excludes sample_library bolt bb_nothing
           "Find companies with high SEM spend").
  reflexivity.
Defined.

(** What one analysis can be. *)
Lemma analyze_shape `{Library} (row : Row) (q : string) (relaxed : bool)
    (d : ResultDict) :
  _analyze_prospect row q relaxed = Ok d ->
  (exists a, d = Full a /\ (relaxed = true -> 1 <= relevance_score a)) \/
  (exists name status, d = FilteredOut name status 0).
Proof.
  unfold _analyze_prospect.
  destruct (buzzboard_of (buzz row)) as [bb|e]; cbn [mbind res_mbind res_bind];
    [|discriminate].
  destruct (score_bundle bb q relaxed) as [s|] eqn:Hs; intros Hd; injection Hd as <-.
  - left. eexists. split; [reflexivity|]. intros ->. cbn [relevance_score].
    destruct (relaxed_score bb q) as (s' & Hs' & Hrel).
    rewrite Hs in Hs'. injection Hs' as <-.
    pose proof (Nat2Z.is_nonneg (List.length (general_gaps bb))). lia.
  - right. eauto.
Qed.

Lemma strict_kept_presentable `{Library} (row : Row) (q : string) (d : ResultDict) :
  _analyze_prospect row q false = Ok d ->
  (0 <? get_relevance_score d) = true -> presentable d.
Proof.
  intros Hd Hpos. apply Z.ltb_lt in Hpos.
  destruct (analyze_shape row q false d Hd) as [(a & -> & _) | (n & st & ->)];
    cbn in *; lia.
Qed.

Lemma relaxed_presentable `{Library} (row : Row) (q : string) (d : ResultDict) :
  _analyze_prospect row q true = Ok d -> presentable d.
Proof.
  intros Hd.
  destruct (analyze_shape row q true d Hd) as [(a & -> & Ha) | (n & st & ->)].
  - cbn. apply Ha. reflexivity.
  - unfold _analyze_prospect in Hd.
    destruct (buzzboard_of (buzz row)) as [bb|e]; cbn in Hd; [|discriminate].
    destruct (relaxed_score bb q) as (s & Hs & _). rewrite Hs in Hd. discriminate.
Qed.

Lemma insert_desc_perm (x : ResultDict) (l : list ResultDict) :
  insert_desc x l ≡ₚ x :: l.
Proof.
  induction l as [|y l IH]; cbn [insert_desc]; [reflexivity|].
  destruct (get_relevance_score x <? get_relevance_score y); [|reflexivity].
  rewrite IH. apply perm_swap.
Qed.

Lemma sort_desc_perm (l : list ResultDict) : sort_desc l ≡ₚ l.
Proof.
  induction l as [|x l IH]; [reflexivity|].
  unfold sort_desc in *. cbn [foldr]. rewrite insert_desc_perm, IH. reflexivity.
Qed.

Lemma insert_desc_descending (x : ResultDict) (l : list ResultDict) :
  descending l -> descending (insert_desc x l).
Proof.
  induction l as [|y l IH]; cbn [insert_desc descending].
  - intros _. split; [constructor | exact I].
  - intros [Hall Hl].
    destruct (Z.ltb_spec (get_relevance_score x) (get_relevance_score y)) as [Hlt|Hge];
      cbn [descending].
    + split; [|apply IH; exact Hl].
      rewrite insert_desc_perm. constructor; [lia | exact Hall].
    + split; [|split; assumption].
      constructor; [exact Hge|].
      eapply Forall_impl; [exact Hall|]. cbn. intros z Hz. lia.
Qed.

Lemma sort_desc_descending (l : list ResultDict) : descending (sort_desc l).
Proof.
  induction l as [|x l IH]; [exact I|].
  unfold sort_desc in *. cbn [foldr]. apply insert_desc_descending. exact IH.
Qed.

Lemma insert_desc_stable (k : Z) (x : ResultDict) (l : list ResultDict) :
  with_relevance k (insert_desc x l) = with_relevance k (x :: l).
Proof.
  unfold with_relevance.
  induction l as [|y l IH]; cbn [insert_desc]; [reflexivity|].
  destruct (Z.ltb_spec (get_relevance_score x) (get_relevance_score y)) as [Hlt|Hge];
    [|reflexivity].
  cbn [List.filter] in *. rewrite IH.
  destruct (Z.eqb_spec (get_relevance_score x) k) as [Hx|Hx];
    destruct (Z.eqb_spec (get_relevance_score y) k) as [Hy|Hy];
    try reflexivity. lia.
Qed.

Lemma descending_ranked (l : list ResultDict) : descending l -> ranked l.
Proof.
  induction l as [|z l IH]; intros Hd i j x y Hij Hi Hj.
  - rewrite lookup_nil in Hi. discriminate.
  - destruct Hd as [Hall Hl]. destruct j as [|j]; [lia|]. cbn in Hj.
    destruct i as [|i]; cbn in Hi.
    + injection Hi as <-. rewrite Forall_forall in Hall.
      apply Hall. eapply list_elem_of_lookup_2. exact Hj.
    + apply (IH Hl i j); [lia | exact Hi | exact Hj].
Qed.

Lemma descending_take (n : nat) (l : list ResultDict) :
  descending l -> descending (take n l).
Proof.
  revert n. induction l as [|x l IH]; intros [|n]; cbn; try tauto.
  intros [Hall Hl]. split; [apply Forall_take; exact Hall | apply IH; exact Hl].
Qed.

(** X9: the sort of the results is a stable ranking. It keeps exactly the
    rows it got, lists them by non-increasing relevance, and leaves rows of
    equal relevance in the order they had. *)
Theorem sort_desc_stable_ranking (l : list ResultDict) :
  sort_desc l ≡ₚ l /\
  ranked (sort_desc l) /\
  (forall k, with_relevance k (sort_desc l) = with_relevance k l).
Proof.
  split; [apply sort_desc_perm|].
  split; [apply descending_ranked, sort_desc_descending|].
  intros k. induction l as [|x l IH]; [reflexivity|].
  unfold sort_desc in *. cbn [foldr]. rewrite insert_desc_stable.
  unfold with_relevance in *. cbn [List.filter]. rewrite IH. reflexivity.
Qed.

Lemma is_empty_length {A : Type} (l : list A) :
  is_empty l = (List.length l =? 0)%nat.
Proof. destruct l; reflexivity. Qed.

(** What steps 4 to 6 return. *)
Lemma score_and_rank_spec `{Library} (filtered : list Row) (q : string)
    (out : list ResultDict) :
  score_and_rank filtered q = Ok out ->
  descending out /\ (1 <= List.length out <= 10)%nat /\
  (filtered <> [] -> Forall presentable out).
Proof.
  unfold score_and_rank.
  destruct (mapM (fun r => _analyze_prospect r q false) filtered)
    as [strict|e] eqn:Hstrict; cbn [mbind res_mbind res_bind]; [|discriminate].
  set (kept := List.filter (fun a => 0 <? get_relevance_score a) strict).
  assert (Hkept : Forall presentable kept).
  { apply mapM_res_inv in Hstrict. unfold kept. clear kept.
    induction Hstrict as [|r d rs ds Hrd _ IH]; cbn [List.filter]; [constructor|].
    destruct (0 <? get_relevance_score d) eqn:Hpos; [|exact IH].
    constructor; [exact (strict_kept_presentable r q d Hrd Hpos) | exact IH]. }
  assert (Hres : forall results,
            (if is_empty kept
             then mapM (fun r => _analyze_prospect r q true) (take 5 filtered)
             else Ok kept) = Ok results ->
            Forall presentable results /\
            (filtered <> [] -> results <> [])).
  { intros results. clearbody kept. destruct kept as [|d kept']; cbn [is_empty].
    - intros Hm.
      destruct (mapM_res_forall _ presentable _ _
                  (fun r d => relaxed_presentable r q d) Hm) as [HP Hlen].
      split; [exact HP|]. intros Hne ->. cbn in Hlen.
      destruct filtered; [contradiction | discriminate].
    - intros Hr. injection Hr as <-. split; [exact Hkept | discriminate]. }
  destruct (if is_empty kept then _ else _) as [results|e] eqn:Hsel;
    cbn [mbind res_mbind res_bind]; [|discriminate].
  destruct (Hres results eq_refl) as [HP Hne].
  intros Hout. injection Hout as <-.
  pose proof (sort_desc_perm results) as Hperm.
  pose proof (Permutation_length Hperm) as Hlen.
  rewrite is_empty_length, Hlen.
  destruct results as [|d results'].
  - cbn [List.length Nat.eqb descending].
    split; [split; [constructor | exact I]|].
    split; [lia|].
    intros Hf. exfalso. apply (Hne Hf). reflexivity.
  - cbn [List.length Nat.eqb].
    split; [apply descending_take, sort_desc_descending|].
    split; [rewrite length_take, Hlen; cbn [List.length]; lia|].
    intros _. apply Forall_take. rewrite Hperm. exact HP.
Qed.

(** X10: the prospects come back ranked. In what steps 4 to 6 return, no
    row has a higher relevance than a row listed before it, and there are
    between 1 and 10 rows. *)
Theorem ranked_results `{Library} (filtered : list Row) (q : string)
    (out : list ResultDict) :
  score_and_rank filtered q = Ok out ->
  ranked out /\ (1 <= List.length out <= 10)%nat.
Proof.
  intros Hout. destruct (score_and_rank_spec filtered q out Hout) as (Hd & Hl & _).
  split; [apply descending_ranked; exact Hd | exact Hl].
Qed.

Lemma ranked_results_witness :
  exists out,
    @score_and_rank sample_library [bolt; acme; cobalt] "contractors in Texas" = Ok out /\
    ranked out /\ (1 <= List.length out <= 10)%nat.
Proof.
  eexists. split; [vm_compute; reflexivity|].
  eapply (@ranked_results sample_library [bolt; acme; cobalt] "contractors in Texas").
  vm_compute. reflexivity.
Defined.

Lemma keyword_matches_presentable `{Library} (df : DataFrame) (q stem pat : string)
    (found : list ResultDict) :
  keyword_matches df q stem pat = Ok found ->
  Forall presentable found /\ (List.length found <= 5)%nat.
Proof.
  unfold keyword_matches.
  destruct (PyStr.contains stem (PyStr.lower q));
    [|intros Hr; injection Hr as <-; split; [constructor | cbn; lia]].
  destruct (category_column df) as [cats|e]; cbn [mbind res_mbind res_bind];
    [|discriminate].
  destruct (str_contains pat) as [m|e]; cbn [mbind res_mbind res_bind];
    [|discriminate].
  intros Hm.
  destruct (mapM_res_forall _ presentable _ _
              (fun r d => relaxed_presentable r q d) Hm) as [HP Hlen].
  split; [exact HP|]. rewrite Hlen, length_take. lia.
Qed.

Lemma broader_search_spec `{Library} (df : DataFrame) (q : string)
    (out : list ResultDict) :
  _try_broader_search df q = Ok out ->
  Forall presentable out /\ (1 <= List.length out <= 10)%nat.
Proof.
  unfold _try_broader_search.
  destruct (keyword_matches df q "computer" "Computer") as [c1|e] eqn:H1;
    cbn [mbind res_mbind res_bind]; [|discriminate].
  destruct (keyword_matches df q "contractor" "Contract") as [c2|e] eqn:H2;
    cbn [mbind res_mbind res_bind]; [|discriminate].
  destruct (keyword_matches_presentable _ _ _ _ _ H1) as [P1 L1].
  destruct (keyword_matches_presentable _ _ _ _ _ H2) as [P2 L2].
  destruct (c1 ++ c2)%list as [|d rest] eqn:Hcat; cbn [is_empty negb].
  - destruct (category_column df) as [cats|e]; cbn [mbind res_mbind res_bind];
      [|discriminate].
    intros Hr. injection Hr as <-.
    split; [repeat constructor | cbn; lia].
  - intros Hr. injection Hr as <-.
    assert (HP : Forall presentable (d :: rest))
      by (rewrite <- Hcat; apply Forall_app; split; assumption).
    split; [apply (Forall_take presentable 10 (d :: rest)); exact HP|].
    change (d :: take 9 rest) with (take 10 (d :: rest)).
    rewrite length_take. cbn [List.length]. lia.
Qed.

(** X11: whatever [find_prospects_hybrid] returns can be shown. The list
    has between 1 and 10 items; a full record in it has relevance at least
    1; the 'Filtered out' marker of a strict exclusion never reaches the
    caller; and the status 'No prospects found matching criteria' is never
    returned. *)
Theorem find_results_presentable `{Library} (extractor_chain : Extractor)
    (df : DataFrame) (q : string) (out : list ResultDict) :
  find_prospects_hybrid extractor_chain df q = Ok out ->
  (1 <= List.length out <= 10)%nat /\
  Forall presentable out /\
  (forall name status score, ~ In (FilteredOut name status score) out) /\
  ~ In (StatusRecord "No prospects found matching criteria") out.
Proof.
  intros Hout.
  assert (Hspec : Forall presentable out /\ (1 <= List.length out <= 10)%nat).
  { unfold find_prospects_hybrid in Hout.
    destruct (extractor_chain q) as [filters|e].
    - destruct (apply_filters (columns df) (rows df) filters) as [filtered|e];
        cbn [mbind res_mbind res_bind] in Hout; [|discriminate].
      destruct filtered as [|r rest]; cbn [is_empty] in Hout.
      + apply (broader_search_spec df q out Hout).
      + destruct (score_and_rank_spec (r :: rest) q out Hout) as (_ & Hl & HP).
        split; [apply HP; discriminate | exact Hl].
    - injection Hout as <-. split; [repeat constructor | cbn; lia]. }
  destruct Hspec as [HP Hl].
  split; [exact Hl|]. split; [exact HP|].
  rewrite Forall_forall in HP. split.
  - intros name status score Hin. apply list_elem_of_In in Hin. exact (HP _ Hin).
  - intros Hin. apply list_elem_of_In in Hin. specialize (HP _ Hin).
    cbn in HP. discriminate HP.
Qed.

Lemma find_results_presentable_witness :
  exists out,
    @find_prospects_hybrid sample_library (fun _ => Ok []) sample_df
      "Find companies with high SEM spend" = Ok out /\
    (1 <= List.length out <= 10)%nat /\
    Forall presentable out.
Proof.
  eexists. split; [vm_compute; reflexivity|].
  match goal with |- context [Forall presentable ?o] =>
    destruct (@find_results_presentable sample_library (fun _ => Ok []) sample_df
                "Find companies with high SEM spend" o) as (Hl & HP & _);
      [vm_compute; reflexivity | split; assumption]
  end.
Defined.

(* ================================================================= *)
(** * Further properties of the detail analyzer *)

Lemma filter_nil_iff {A : Type} (f : A -> bool) (l : list A) :
  List.filter f l = [] <-> Forall (fun x => f x = false) l.
Proof.
  induction l as [|x l IH]; cbn [List.filter]; [split; [constructor | reflexivity]|].
  destruct (f x) eqn:Hx; split.
  - discriminate.
  - intros HF. inversion HF; congruence.
  - intros Hl. constructor; [exact Hx | apply IH; exact Hl].
  - intros HF. inversion HF; subst. apply IH. assumption.
Qed.

Lemma filter_first {A : Type} (f : A -> bool) (l : list A) (x : A) (rest : list A) :
  List.filter f l = x :: rest ->
  exists before after,
    l = (before ++ x :: after)%list /\ f x = true /\
    Forall (fun y => f y = false) before.
Proof.
  induction l as [|y l IH]; cbn [List.filter]; [discriminate|].
  destruct (f y) eqn:Hy.
  - intros Hl. injection Hl as -> _. exists [], l.
    split; [reflexivity|]. split; [exact Hy | constructor].
  - intros Hl. destruct (IH Hl) as (before & after & -> & Hx & Hb).
    exists (y :: before), after.
    split; [reflexivity|]. split; [exact Hx | constructor; assumption].
Qed.

(** X12: on ASCII names the lookup of [get_prospect_details] is by name,
    whatever the case of the letters A to Z. When the name asked for and
    the names of the rows are ASCII text, it answers [None] exactly when no
    row bears the name, so a miss is never an empty report; a report is for
    the first row that bears the name; and two ASCII names equal once
    lower-cased get the same answer. *)
Theorem lookup_by_name `{Library} (df : DataFrame) (prospect_name : string) :
  "Prospect Business Name" ∈ columns df ->
  is_ascii prospect_name = true ->
  Forall (fun r => is_ascii (row_name r) = true) (rows df) ->
  (snd (get_prospect_details df prospect_name) = Ok None <->
   Forall (fun r => bears_name prospect_name r = false) (rows df)) /\
  (forall d, snd (get_prospect_details df prospect_name) = Ok (Some d) ->
     exists before r after,
       rows df = (before ++ r :: after)%list /\
       bears_name prospect_name r = true /\
       Forall (fun r' => bears_name prospect_name r' = false) before /\
       det_name d = cells r !! "Prospect Business Name") /\
  (forall other, is_ascii other = true ->
     PyStr.lower other = PyStr.lower prospect_name ->
     get_prospect_details df other = get_prospect_details df prospect_name).
Proof.
  intros Hcol _ _.
  assert (Hunfold : forall name,
            get_prospect_details df name =
              match List.filter (bears_name name) (rows df) with
              | [] => mret None
              | prospect_data :: _ =>
                  bb ← lift (buzzboard_of (buzz prospect_data));
                  let swot := _generate_swot_analysis bb prospect_data in
                  market_analysis ← _analyze_market_trends df prospect_data;
                  mret (Some
                    {| det_name := cells prospect_data !! "Prospect Business Name";
                       det_category := cells prospect_data !! "Primary Category";
                       det_location :=
                         default "" (cells prospect_data !! "City") ++ ", " ++
                         default "" (cells prospect_data !! "State");
                       det_d_score := d_score bb;
                       det_seo_score := _calculate_seo_score bb;
                       det_social_score := _calculate_social_score bb;
                       det_swot := swot;
                       det_market_trends := trends market_analysis;
                       det_competitors := competitors market_analysis;
                       det_timing := _get_optimal_timing prospect_data swot;
                       det_engagement := _get_engagement_strategy swot |})
              end).
  { intros name. unfold get_prospect_details.
    rewrite bool_decide_eq_true_2 by exact Hcol. reflexivity. }
  split; [|split].
  - rewrite Hunfold, <- filter_nil_iff.
    destruct (List.filter (bears_name prospect_name) (rows df)) as [|r rest];
      [split; reflexivity|].
    split; [|discriminate].
    destruct (buzzboard_of (buzz r)) as [bb|e];
      cbn [lift mbind eff_mbind eff_bind snd]; [|discriminate].
    destruct (_analyze_market_trends df r) as [t [m|e]];
      cbn [mbind eff_mbind eff_bind mret eff_mret eff_ret snd]; discriminate.
  - intros d. rewrite Hunfold.
    destruct (List.filter (bears_name prospect_name) (rows df)) as [|r rest] eqn:Hf;
      [cbn; discriminate|].
    destruct (filter_first _ _ _ _ Hf) as (before & after & Hrows & Hr & Hb).
    destruct (buzzboard_of (buzz r)) as [bb|e];
      cbn [lift mbind eff_mbind eff_bind snd]; [|discriminate].
    destruct (_analyze_market_trends df r) as [t [m|e]];
      cbn [mbind eff_mbind eff_bind mret eff_mret eff_ret snd]; [|discriminate].
    intros Hd. injection Hd as <-.
    exists before, r, after. repeat split; assumption || reflexivity.
  - intros other _ Hlow. rewrite !Hunfold.
    assert (Hsame : forall r, bears_name other r = bears_name prospect_name r)
      by (intros r; unfold bears_name; rewrite Hlow; reflexivity).
    rewrite (List.filter_ext _ _ Hsame). reflexivity.
Qed.

Lemma lookup_by_name_witness :
  @get_prospect_details sample_library sample_df "ACME it"
  = @get_prospect_details sample_library sample_df "Acme IT".
Proof.
  apply (@lookup_by_name sample_library sample_df "Acme IT").
  - apply (bool_decide_eq_true_1 ("Prospect Business Name" ∈ columns sample_df)).
    vm_compute. reflexivity.
  - reflexivity.
  - repeat constructor.
  - reflexivity.
  - reflexivity.
Defined.

Example lookup_miss :
  @get_prospect_details sample_library sample_df "Acme Corp" = ([], Ok None).
Proof. vm_compute. reflexivity. Qed.

(** X13: the engagement strategy of a report depends on the signals as
    follows: the audit when none of the three core signals is 'Yes'; the
    local-SEO opening when Google Places is not 'Yes' but another signal
    is; the optimization advice when Google Places is 'Yes'. The paid-search
    strategy is never chosen, since no weakness text holds 'SEM'. *)
Theorem engagement_by_signals (bb : Buzzboard) (prospect_data : Row) :
  let strategy :=
    _get_engagement_strategy (_generate_swot_analysis bb prospect_data) in
  strategy <> "Position paid search solutions to capture competitor traffic." /\
  (core_signals_present bb = 0 ->
   strategy = "Lead with comprehensive digital marketing audit. Focus on immediate wins like Google My Business setup.") /\
  (is_yes bb "Google Places" = false -> 0 < core_signals_present bb ->
   strategy = "Start conversation around local SEO and Google My Business optimization.") /\
  (is_yes bb "Google Places" = true ->
   strategy = "Focus on optimization and advanced digital marketing strategies.").
Proof.
  cbn zeta.
  unfold core_signals_present, _get_engagement_strategy, _generate_swot_analysis,
    signal_weaknesses.
  cbn [Weaknesses].
  destruct (is_yes bb "Google Places"), (is_yes bb "SEM"),
    (is_yes bb "FB latest_posts"); vm_compute;
    repeat split; intros; try reflexivity; try discriminate.
Qed.

(** X14: the urgency of the timing advice is set by the number of core
    signals that are 'Yes', whatever the category: none, send immediately
    and follow up in 3-5 days; one, within 24 hours and one week; two or
    three, within 2-3 days and two weeks. *)
Theorem urgency_by_signals (bb : Buzzboard) (prospect_data row : Row) :
  let timing :=
    _get_optimal_timing row (_generate_swot_analysis bb prospect_data) in
  Z.of_nat (List.length (signal_weaknesses bb)) = 3 - core_signals_present bb /\
  (urgency timing, follow_up_schedule timing) =
    if core_signals_present bb =? 0
    then ("Send immediately", "Follow up in 3-5 days")
    else if core_signals_present bb =? 1
    then ("Send within 24 hours", "Follow up in 1 week")
    else ("Send within 2-3 days", "Follow up in 2 weeks").
Proof.
  cbn zeta.
  unfold core_signals_present, _get_optimal_timing, _generate_swot_analysis,
    signal_weaknesses.
  cbn [Weaknesses].
  destruct (existsb _ ["computer"; "it"; "tech"; "software"]);
    [|destruct (existsb _ ["contractor"; "plumbing"; "electrical"])];
    destruct (is_yes bb "Google Places"), (is_yes bb "SEM"),
      (is_yes bb "FB latest_posts"); split; reflexivity.
Qed.

(** ** Market trends: the percentages *)

(** The counters grow by at most one per peer row. *)
Lemma count_adoption_bounds `{Library} (peers : list Row) (a b c a' b' c' : Z) :
  count_adoption peers (a, b, c) = Ok (a', b', c') ->
  let n := Z.of_nat (List.length peers) in
  a <= a' <= a + n /\ b <= b' <= b + n /\ c <= c' <= c + n.
Proof.
  revert a b c. induction peers as [|row rest IH]; intros a b c;
    cbn [count_adoption].
  - intros Hr. injection Hr as <- <- <-. cbn. lia.
  - destruct (buzzboard_of (buzz row)) as [bb|e]; cbn [mbind res_mbind res_bind];
      [|discriminate].
    intros Hr. apply IH in Hr. cbn zeta in *.
    rewrite length_cons, Nat2Z.inj_succ.
    destruct (is_yes bb "Google Places"), (is_yes bb "SEM"),
      (is_yes bb "FB latest_posts"); lia.
Qed.

Lemma percent_range (adoption total : Z) :
  0 <= adoption <= total -> 0 < total ->
  (inject_Z 0 <= inject_Z adoption / inject_Z total * 100)%Q /\
  (inject_Z adoption / inject_Z total * 100 <= inject_Z 100)%Q.
Proof.
  intros Ha Ht. destruct total as [|t|t]; try lia.
  unfold Qle, Qdiv, Qmult, Qinv, inject_Z. cbn. split; nia.
Qed.

Lemma above_lt (x : Q) (bound : Z) : above x bound = true -> (inject_Z bound < x)%Q.
Proof.
  unfold above. intros Hb. apply negb_true_iff in Hb.
  apply Qnot_le_lt. intros Hle. apply Qle_bool_iff in Hle. congruence.
Qed.

Lemma below_lt (x : Q) (bound : Z) : below x bound = true -> (x < inject_Z bound)%Q.
Proof.
  unfold below. intros Hb. apply negb_true_iff in Hb.
  apply Qnot_le_lt. intros Hle. apply Qle_bool_iff in Hle. congruence.
Qed.

(** X15: a market analysis that is returned never has an empty trends or
    competitors list, and every percentage it states is between 0 and 100
    and on the side of its threshold: above 70 for Google Places, above 50
    for SEM, below 30 for social. *)
Theorem market_report_in_range `{Library} (df : DataFrame) (prospect_data : Row)
    (t : list Op) (m : MarketAnalysis) :
  _analyze_market_trends df prospect_data = (t, Ok m) ->
  trends m <> [] /\ competitors m <> [] /\ Forall trend_in_range (trends m).
Proof.
  unfold _analyze_market_trends.
  destruct (similar_businesses df _ _) as [peers|e];
    cbn [lift mbind eff_mbind eff_bind]; [|discriminate].
  set (total := Z.of_nat (List.length peers)).
  destruct (Z.leb_spec total 1) as [Hle|Hgt].
  - cbn. intros Hr. injection Hr as _ <-. cbn.
    split; [discriminate|]. split; [discriminate|]. repeat constructor.
  - destruct (count_adoption peers (0, 0, 0)) as [[[gp sem] social]|e] eqn:Hcount;
      cbn [lift mbind eff_mbind eff_bind]; [|discriminate].
    rewrite !percent_of_nonzero by lia.
    cbn [mbind eff_mbind eff_bind mret eff_mret eff_ret app].
    intros Hr. injection Hr as _ <-. cbn [trends competitors].
    apply count_adoption_bounds in Hcount. cbn zeta in Hcount. fold total in Hcount.
    destruct (percent_range gp total) as [Hg0 Hg100]; [lia | lia |].
    destruct (percent_range sem total) as [Hs0 Hs100]; [lia | lia |].
    destruct (percent_range social total) as [Hf0 Hf100]; [lia | lia |].
    split; [|split; [discriminate|]].
    + match goal with |- (if is_empty ?l then _ else _) <> _ =>
        destruct l; cbn [is_empty]; discriminate
      end.
    + assert (Hfound : forall l, Forall trend_in_range l ->
                Forall trend_in_range (if is_empty l then [StandardAdoption] else l)).
      { intros [|x l] Hl; cbn [is_empty]; [repeat constructor | exact Hl]. }
      apply Hfound. repeat apply Forall_app_2.
      * destruct (above _ 70) eqn:Ha; [|constructor].
        repeat constructor; [apply above_lt; exact Ha | exact Hg100].
      * destruct (above _ 50) eqn:Ha; [|constructor].
        repeat constructor; [apply above_lt; exact Ha | exact Hs100].
      * destruct (below _ 30) eqn:Ha; [|constructor].
        repeat constructor; [exact Hf0 | apply below_lt; exact Ha].
Qed.

Lemma market_report_in_range_witness :
  exists t m,
    @_analyze_market_trends sample_library peer_df acme = (t, Ok m) /\
    trends m <> [] /\ competitors m <> [] /\ Forall trend_in_range (trends m).
Proof.
  eexists _, _. split; [vm_compute; reflexivity|].
  match goal with |- context [Forall trend_in_range (trends ?m)] =>
    apply (@market_report_in_range sample_library peer_df acme
             [Divide 1 2; Divide 1 2; Divide 0 2] m)
  end.
  vm_compute. reflexivity.
Defined.

(* ================================================================= *)
(** * Further properties: the router window, filters, parsed data *)

Lemma last_n_le {A : Type} (n m : nat) (l : list A) :
  (n <= m)%nat -> last_n n (last_n m l) = last_n n l.
Proof.
  intros Hnm. unfold last_n. rewrite length_drop, drop_drop. f_equal. lia.
Qed.

(** X16: in a turn the router never gets 'No previous context'. Its window
    is the items of the last two earlier queries followed by the item of
    the current query, and the message it classifies lists the same
    queries, the current one included, as previous. *)
Theorem router_window_has_current_query (repr_queries : list string -> string)
    (mem : Memory) (now q : string) :
  let h := remember (history mem) q now in
  let current := {| query := q; timestamp := now; response := None |} in
  history_window (Some h) = Recent (last_n 2 (history mem) ++ [current])%list /\
  (1 <= List.length (last_n 2 (history mem) ++ [current])%list <= 3)%nat /\
  context_msg repr_queries h q =
    "Previous queries: " ++
    repr_queries (map query (last_n 2 (history mem)) ++ [q])%list ++
    String (ascii_of_N 10) ("Current query: " ++ q).
Proof.
  intros h current.
  assert (Hh : h = (last_n 9 (history mem) ++ [current])%list)
    by (unfold h; rewrite remember_last_10; apply last_n_snoc).
  assert (Hw : last_n 3 h = (last_n 2 (history mem) ++ [current])%list).
  { rewrite Hh, last_n_snoc, last_n_le by lia. reflexivity. }
  split; [|split].
  - unfold history_window. rewrite <- Hw.
    destruct h as [|x h']; [|reflexivity].
    destruct (last_n 9 (history mem)); discriminate Hh.
  - rewrite length_app, last_n_length. cbn [List.length]. lia.
  - unfold context_msg. rewrite Hw, map_app. reflexivity.
Qed.

(** X17: a filter on a column the DataFrame does not have is ignored.
    Filtering gives the same rows, or the same exception, as with those
    filters left out. *)
Theorem unknown_columns_ignored `{Library} (cols : list string) (rs : list Row)
    (filters : list FilterCondition) :
  apply_filters cols rs filters
    = apply_filters cols rs
        (List.filter (fun f => bool_decide (field f ∈ cols)) filters).
Proof.
  revert rs. induction filters as [|f filters IH]; intros rs; [reflexivity|].
  cbn [List.filter apply_filters].
  destruct (bool_decide (field f ∈ cols)) eqn:Hf.
  - cbn [apply_filters].
    destruct (apply_filter cols rs f) as [rs1|e]; cbn; [apply IH | reflexivity].
  - apply bool_decide_eq_false in Hf.
    rewrite filter_unknown_column by exact Hf.
    cbn. apply IH.
Qed.

Lemma filter_all {A : Type} (l : list A) : List.filter (fun _ => true) l = l.
Proof. induction l as [|x l IH]; cbn; [reflexivity | rewrite IH; reflexivity]. Qed.

Lemma filter_comm {A : Type} (f g : A -> bool) (l : list A) :
  List.filter f (List.filter g l) = List.filter g (List.filter f l).
Proof.
  induction l as [|x l IH]; [reflexivity|].
  cbn [List.filter]. destruct (f x) eqn:Hf, (g x) eqn:Hg; cbn [List.filter];
    rewrite ?Hf, ?Hg, IH; reflexivity.
Qed.

(** A filter that cannot take the rescue keeps the rows that pass a test
    of its own, or raises whatever the rows. *)
Lemma plain_filter_form `{Library} (cols : list string) (f : FilterCondition) :
  ~ rescuing f ->
  (exists p, forall rs, apply_filter cols rs f = Ok (List.filter p rs)) \/
  (exists e, forall rs, apply_filter cols rs f = Raise e).
Proof.
  intros Hplain. unfold apply_filter.
  destruct (bool_decide (field f ∈ cols)); cbn [negb];
    [|left; exists (fun _ => true); intros rs; rewrite filter_all; reflexivity].
  destruct (operator f) eqn:Hop.
  - destruct (str_contains (PyStr.lower (value f))) as [m|e]; cbn;
      [left; eexists; intros rs; reflexivity | right; eexists; intros rs; reflexivity].
  - destruct (str_contains (PyStr.lower (value f))) as [m|e]; cbn;
      [left; eexists; intros rs; reflexivity | right; eexists; intros rs; reflexivity].
  - destruct (String.eqb_spec (field f) "Primary Category") as [Hcat|_].
    + exfalso. apply Hplain. split; assumption.
    + left. exists (fun r => String.eqb (column_text r (field f)) (PyStr.lower (value f))).
      intros rs. rewrite andb_false_r. reflexivity.
  - left. eexists. intros rs. reflexivity.
Qed.

(** X18: filters that cannot take the category rescue are a conjunction:
    applied in either order, two of them return the same rows. *)
Theorem plain_filters_commute `{Library} (cols : list string) (rs out : list Row)
    (f g : FilterCondition) :
  ~ rescuing f -> ~ rescuing g ->
  apply_filters cols rs [f; g] = Ok out ->
  apply_filters cols rs [g; f] = Ok out.
Proof.
  intros Hf Hg. cbn [apply_filters].
  destruct (plain_filter_form cols f Hf) as [[p Hp] | [e He]];
    destruct (plain_filter_form cols g Hg) as [[p' Hp'] | [e' He']];
    rewrite ?Hp, ?Hp', ?He, ?He'; cbn;
    rewrite ?Hp, ?Hp', ?He, ?He'; cbn; try discriminate.
  intros Hout. injection Hout as <-. rewrite filter_comm. reflexivity.
Qed.

Lemma plain_filters_commute_witness :
  @apply_filters sample_library sample_columns [acme; bolt; cobalt]
    [{| field := "State"; operator := equals; value := "TX" |};
     {| field := "Primary Category"; operator := contains; value := "Computer" |}]
  = Ok [acme; cobalt].
Proof.
  apply (@plain_filters_commute sample_library sample_columns [acme; bolt; cobalt]
           [acme; cobalt]
           {| field := "Primary Category"; operator := contains; value := "Computer" |}
           {| field := "State"; operator := equals; value := "TX" |}).
  - intros [Hop _]. discriminate Hop.
  - intros [_ Hfld]. discriminate Hfld.
  - vm_compute. reflexivity.
Defined.

(** With the rescue the order matters: the same two [equals] filters keep
    a row in one order and none in the other. *)
Example rescue_order_matters :
  @apply_filters sample_library sample_columns [shop_ca; acme]
    [{| field := "Primary Category"; operator := equals; value := "Computer" |};
     {| field := "State"; operator := equals; value := "TX" |}] = Ok [] /\
  @apply_filters sample_library sample_columns [shop_ca; acme]
    [{| field := "State"; operator := equals; value := "TX" |};
     {| field := "Primary Category"; operator := equals; value := "Computer" |}]
    = Ok [acme].
Proof. split; vm_compute; reflexivity. Qed.

Lemma filter_elem {A : Type} (f : A -> bool) (l : list A) (x : A) :
  x ∈ List.filter f l -> x ∈ l.
Proof.
  intros Hx. apply list_elem_of_In. apply list_elem_of_In in Hx.
  apply filter_In in Hx. tauto.
Qed.

Lemma count_adoption_total `{Library} (peers : list Row) (acc : Z * Z * Z) :
  Forall parsed_row peers -> exists r, count_adoption peers acc = Ok r.
Proof.
  intros HF. revert acc. induction HF as [|row rest [d Hd] _ IH]; intros acc;
    cbn [count_adoption]; [eauto|].
  rewrite Hd. cbn [buzzboard_of mbind res_mbind res_bind].
  destruct acc as [[gp sem] social]. apply IH.
Qed.

(** X19: on a DataFrame whose BuzzBoard cells are all dicts and that has
    the name, category and state columns, [get_prospect_details] never
    raises: it answers [None] or a report. *)
Theorem details_total_on_parsed `{Library} (df : DataFrame) (prospect_name : string) :
  "Prospect Business Name" ∈ columns df ->
  "Primary Category" ∈ columns df ->
  "State" ∈ columns df ->
  Forall parsed_row (rows df) ->
  exists t answer, get_prospect_details df prospect_name = (t, Ok answer).
Proof.
  intros Hname Hcat Hstate Hrows. unfold get_prospect_details.
  rewrite bool_decide_eq_true_2 by exact Hname. cbn [negb].
  destruct (List.filter _ (rows df)) as [|r rest] eqn:Hf; [eexists _, _; reflexivity|].
  assert (Hr : parsed_row r).
  { rewrite Forall_forall in Hrows. apply Hrows.
    eapply filter_elem. rewrite Hf. left. }
  destruct Hr as [d Hd]. rewrite Hd.
  cbn [buzzboard_of lift mbind eff_mbind eff_bind].
  assert (Hmarket : exists t m, _analyze_market_trends df r = (t, Ok m)).
  { unfold _analyze_market_trends, similar_businesses.
    rewrite !bool_decide_eq_true_2 by assumption.
    cbn [negb lift mbind eff_mbind eff_bind].
    match goal with |- context [Z.of_nat (List.length ?l)] => set (peers := l) end.
    destruct (Z.leb_spec (Z.of_nat (List.length peers)) 1); [eexists _, _; reflexivity|].
    assert (Hpeers : Forall parsed_row peers).
    { rewrite Forall_forall in *. intros x Hx. apply Hrows.
      eapply filter_elem. exact Hx. }
    destruct (count_adoption_total peers (0, 0, 0) Hpeers) as [[[gp sem] social] Hc].
    rewrite Hc. cbn [lift mbind eff_mbind eff_bind].
    rewrite !percent_of_nonzero by lia.
    eexists _, _. reflexivity. }
  destruct Hmarket as (t & m & Hm). rewrite Hm.
  eexists _, _. reflexivity.
Qed.

Lemma details_total_on_parsed_witness :
  exists t answer,
    @get_prospect_details sample_library peer_df "cobalt networks" = (t, Ok answer).
Proof.
  apply (@details_total_on_parsed sample_library peer_df "cobalt networks").
  - apply (bool_decide_eq_true_1 ("Prospect Business Name" ∈ columns peer_df)).
    vm_compute. reflexivity.
  - apply (bool_decide_eq_true_1 ("Primary Category" ∈ columns peer_df)).
    vm_compute. reflexivity.
  - apply (bool_decide_eq_true_1 ("State" ∈ columns peer_df)).
    vm_compute. reflexivity.
  - repeat constructor; eexists; reflexivity.
Defined.
